(** * nu3Geometry: the shape-morphing geometry engine

    A shallow embedding of [geometries/sphericalCustomGeometry.js]
    (class [SphericalCustomGeometry]) and [geometries/shapeMorphEngine.js]
    (class [ShapeMorphEngine]), with the part of [utils/logger.js] they call.

    Conventions of the embedding.
    - A JavaScript number is a real number ([R]); integer-valued numbers that
      are used as counts or indices ([polygonCount], [gridWidth],
      [gridHeight], the results of [Math.floor]) are integers ([Z]).  NaN,
      the infinities and rounding (that of doubles and that of the 32-bit
      storage of the attributes) are not represented, so statements that
      divide carry the hypothesis that the divisor is not zero, and
      statements that are exact only before rounding say so.
    - [this] and the logger singleton are threaded explicitly ([World]).
    - A method that can throw returns a [completion].
    - [THREE.MathUtils.lerp], [setAttribute] and [Float32BufferAttribute]
      belong to three.js; they are modelled by what they compute (the blend
      [(1 - t) * x + t * y], a property write, and the pair of the array and
      its item size). *)

From Stdlib Require Import Reals Lra Lia ZArith List String Bool.
Import ListNotations.
Open Scope R_scope.

(** ** Completions of a method call *)

Inductive exn : Type :=
| TypeError (message : string).

(** [Escapes] marks a call that leaves the fragment of JavaScript described
    here: one of the members that every object inherits from
    [Object.prototype] and that return when they are called ([constructor],
    [isPrototypeOf], [toString]) is invoked in place of a shape profile, and
    what it returns is not a number.  Nothing is claimed about what the
    program does from there on. *)
Inductive completion (A : Type) : Type :=
| Normal (a : A)
| Throw (e : exn)
| Escapes (member : string).

Arguments Normal {A} a.
Arguments Throw {A} e.
Arguments Escapes {A} member.

Definition bind {A B : Type} (c : completion A) (k : A -> completion B)
  : completion B :=
  match c with
  | Normal a => k a
  | Throw e => Throw e
  | Escapes m => Escapes m
  end.

Declare Scope js_scope.
Delimit Scope js_scope with js.
Notation "'let*' x ':=' c 'in' k" := (bind c (fun x => k))
  (at level 10, x name, c at level 100, k at level 200) : js_scope.
Open Scope js_scope.

(** ** The [Math] functions and [lerp] *)

Module MathJS.

Definition floor (x : R) : Z := Zfloor x.
Definition min (x y : R) : R := Rmin x y.
Definition max (x y : R) : R := Rmax x y.
Definition abs (x : R) : R := Rabs x.
(** [Math.pow] is only ever called with the literal exponent 2. *)
Definition pow (x : R) (n : nat) : R := x ^ n.
(** [THREE.MathUtils.lerp(x, y, t)]. *)
Definition lerp (x y t : R) : R := (1 - t) * x + t * y.

End MathJS.

(** ** utils/logger.js *)

Module Logger.

Inductive level : Type := error | warn | info | debug | trace.

(** [this.logLevels] *)
Definition logLevels (l : level) : Z :=
  match l with
  | error => 0 | warn => 1 | info => 2 | debug => 3 | trace => 4
  end%Z.

Record t : Type := mk {
  logLevel : level;
  console : list (level * string)   (* what reached the console, oldest first *)
}.

(** The singleton: [new Logger({ logLevel: 'info' })]. *)
Definition loggerInstance : t := mk info [].

Definition _log (lg : t) (l : level) (message : string) : t :=
  if (logLevels l <=? logLevels (logLevel lg))%Z
  then mk (logLevel lg) (console lg ++ [(l, message)])
  else lg.

End Logger.

(** ** geometries/shapeMorphEngine.js *)

Module ShapeMorphEngine.

Record t : Type := mk { baseRadius : R }.

Definition SDF : Type := R -> R -> R -> R.   (* theta, phi, radius *)

Definition Sphere : SDF := fun theta phi radius => radius.

Definition Cube : SDF := fun theta phi radius =>
  radius * MathJS.max (MathJS.abs (sin theta)) (MathJS.abs (cos phi)).

Definition Cone : SDF := fun theta phi radius =>
  radius * (1 - phi / PI).

Definition Cylinder : SDF := fun theta phi radius =>
  radius * sin phi.

Definition Torus : SDF := fun theta phi radius =>
  let minorRadius := radius * 0.3 in
  radius + minorRadius * cos phi.

Definition Parabola : SDF := fun theta phi radius =>
  radius * (1 - MathJS.pow (2 * phi / PI - 1) 2).

(** [static shapeSDFs = { ... }], its own properties in source order. *)
Definition shapeSDFs : list (string * SDF) :=
  [ ("Sphere", Sphere); ("Cube", Cube); ("Cone", Cone);
    ("Cylinder", Cylinder); ("Torus", Torus); ("Parabola", Parabola)
  ]%string.

(** [shapeSDFs] is an object literal, so a lookup that misses its own
    properties goes on to [Object.prototype]. *)
Definition objectPrototypeKeys : list string :=
  [ "constructor"; "hasOwnProperty"; "isPrototypeOf";
    "propertyIsEnumerable"; "toLocaleString"; "toString"; "valueOf";
    "__proto__"; "__defineGetter__"; "__defineSetter__";
    "__lookupGetter__"; "__lookupSetter__" ]%string.

Inductive member : Type :=
| Own (f : SDF)
| Inherited (key : string)
| Undefined.

Fixpoint assoc {A : Type} (key : string) (l : list (string * A)) : option A :=
  match l with
  | [] => None
  | (k, v) :: rest => if String.eqb k key then Some v else assoc key rest
  end.

(** [ShapeMorphEngine.shapeSDFs[name]] *)
Definition get (name : string) : member :=
  match assoc name shapeSDFs with
  | Some f => Own f
  | None =>
      if existsb (String.eqb name) objectPrototypeKeys
      then Inherited name else Undefined
  end.

Definition truthy (m : member) : bool :=
  match m with
  | Undefined => false
  | _ => true
  end.

(** [Object.keys(ShapeMorphEngine.shapeSDFs)] *)
Definition keys : list string := map fst shapeSDFs.

(** The inherited members that throw a TypeError when they are called as
    [f(theta, phi, radius)], that is with [this] undefined: [__proto__] is
    not a function, the others convert [this] to an object first. *)
Definition throwsWhenCalled : list string :=
  [ "hasOwnProperty"; "propertyIsEnumerable"; "toLocaleString"; "valueOf";
    "__proto__"; "__defineGetter__"; "__defineSetter__";
    "__lookupGetter__"; "__lookupSetter__" ]%string.

Definition uncallable : exn :=
  TypeError "Cannot convert undefined or null to object".

(** Calling what a lookup returned, as [f(theta, phi, radius)]. *)
Definition call (m : member) (theta phi radius : R) : completion R :=
  match m with
  | Own f => Normal (f theta phi radius)
  | Inherited key =>
      if existsb (String.eqb key) throwsWhenCalled
      then Throw uncallable else Escapes key
  | Undefined => Throw (TypeError "undefined is not a function")
  end.

(** The two literal entries of [morphParams]. *)
Inductive morphParam : Type :=
| complexity (v : R)
| edgeSharpness (v : R).

(** What indexing the [morphParams] literal returns: one of its two
    entries, a member inherited from [Object.prototype], or [undefined]. *)
Inductive parameters : Type :=
| OwnParameters (p : morphParam)
| InheritedParameters (key : string)
| NoParameters.

Record shapeParameters : Type := mkParameters {
  sdfFunction : member;
  morphParams : parameters
}.

(** [getShapeParameters(shapeName)]: [a || b] is [a] when [a] is truthy. *)
Definition getShapeParameters (shapeName : string) : shapeParameters :=
  mkParameters
    (if truthy (get shapeName) then get shapeName else get "Sphere")
    (match
       assoc shapeName
         [ ("Sphere", complexity 1); ("Cube", edgeSharpness 0.8) ]%string
     with
     | Some p => OwnParameters p
     | None =>
         if existsb (String.eqb shapeName) objectPrototypeKeys
         then InheritedParameters shapeName else NoParameters
     end).

End ShapeMorphEngine.

(** ** geometries/sphericalCustomGeometry.js *)

Module SphericalCustomGeometry.

(** The object literal of [generatePropertyCell]. *)
Record PropertyCell : Type := mkCell {
  (* Geometric Properties *)
  anisotropy : R;
  sphericity : R;
  rugosity : R;
  gaussianCurvature : R;
  meanCurvature : R;
  torsion : R;
  convexity : R;
  smoothness : R;
  edgeSharpness : R;
  fractalDimension : R;
  surfaceGradient : R;
  normalVariation : R;
  (* Symmetry Properties *)
  axisSymmetry : R;
  rotationSymmetry : R;
  translationSymmetry : R;
  mirrorSymmetry : R;
  radialSymmetry : R;
  (* Topological & Structural Properties *)
  eulerCharacteristic : R;
  localConnectivity : R;
  boundaryCurvature : R;
  tangentPlaneVariance : R;
  densityGradient : R;
  rigidity : R
}.

(** [config.shapeInterpolation], when it is not [null]. *)
Record ShapeInterpolation : Type := mkInterpolation {
  from : string;
  to : string;
  duration : R
}.

Record Config : Type := mkConfig {
  radius : R;
  polygonCount : Z;
  gridWidth : Z;
  gridHeight : Z;
  morphSpeed : R;
  dynamicEvolution : bool;
  currentShape : string;
  shapeInterpolation : option ShapeInterpolation
}.

(** [scalarField.shapeTransition]; [from] and [to] start as [null]. *)
Record ShapeTransition : Type := mkTransition {
  transitionFrom : option string;
  transitionTo : option string;
  progress : R
}.

Record ScalarField : Type := mkScalarField {
  time : R;
  shapeTransition : ShapeTransition
}.

(** [new THREE.Float32BufferAttribute(array, itemSize)]: [array] holds the
    numbers handed to the constructor; their conversion to 32-bit floats
    for storage is not represented. *)
Record BufferAttribute : Type := mkAttribute {
  array : list R;
  itemSize : Z
}.

(** The instance: its own fields and the [attributes] object it inherits
    from [THREE.BufferGeometry], in insertion order. *)
Record Geometry : Type := mkGeometry {
  config : Config;
  morphEngine : ShapeMorphEngine.t;
  propertyMatrix : list (list PropertyCell);
  scalarField : ScalarField;
  attributes : list (string * BufferAttribute)
}.

Record World : Type := mkWorld {
  this : Geometry;
  logger : Logger.t
}.

(** *** Field writes *)

Definition set_shapeInterpolation (v : option ShapeInterpolation) (c : Config)
  : Config :=
  mkConfig (radius c) (polygonCount c) (gridWidth c) (gridHeight c)
    (morphSpeed c) (dynamicEvolution c) (currentShape c) v.

Definition set_currentShape (v : string) (c : Config) : Config :=
  mkConfig (radius c) (polygonCount c) (gridWidth c) (gridHeight c)
    (morphSpeed c) (dynamicEvolution c) v (shapeInterpolation c).

Definition set_config (v : Config) (g : Geometry) : Geometry :=
  mkGeometry v (morphEngine g) (propertyMatrix g) (scalarField g)
    (attributes g).

Definition set_scalarField (v : ScalarField) (g : Geometry) : Geometry :=
  mkGeometry (config g) (morphEngine g) (propertyMatrix g) v (attributes g).

Definition set_attributes (v : list (string * BufferAttribute)) (g : Geometry)
  : Geometry :=
  mkGeometry (config g) (morphEngine g) (propertyMatrix g) (scalarField g) v.

Definition set_time (v : R) (f : ScalarField) : ScalarField :=
  mkScalarField v (shapeTransition f).

Definition set_shapeTransition (v : ShapeTransition) (f : ScalarField)
  : ScalarField :=
  mkScalarField (time f) v.

Definition set_progress (v : R) (t : ShapeTransition) : ShapeTransition :=
  mkTransition (transitionFrom t) (transitionTo t) v.

(** [this.setAttribute(name, attribute)]: [this.attributes[name] = attribute]. *)
Fixpoint setAttribute (name : string) (a : BufferAttribute)
  (attrs : list (string * BufferAttribute)) : list (string * BufferAttribute) :=
  match attrs with
  | [] => [(name, a)]
  | (k, v) :: rest =>
      if String.eqb k name then (k, a) :: rest
      else (k, v) :: setAttribute name a rest
  end.

(** [array[i]]: [undefined] outside the array. *)
Definition index {A : Type} (l : list A) (i : Z) : option A :=
  if (i <? 0)%Z then None else nth_error l (Z.to_nat i).

(** *** generatePropertyCell and initializePropertyMatrix

    [Math.random] is a stream of draws; a cell takes two of them, the
    first for [anisotropy] and the second for [rugosity]. *)

Definition generatePropertyCell (random : nat -> R) (drawn : nat)
  : PropertyCell :=
  {| anisotropy := random drawn;
     sphericity := 1.0;
     rugosity := random (S drawn);
     gaussianCurvature := 0;
     meanCurvature := 0;
     torsion := 0;
     convexity := 1;
     smoothness := 1;
     edgeSharpness := 0.5;
     fractalDimension := 1;
     surfaceGradient := 0;
     normalVariation := 0;
     axisSymmetry := 1;
     rotationSymmetry := 1;
     translationSymmetry := 1;
     mirrorSymmetry := 1;
     radialSymmetry := 1;
     eulerCharacteristic := 0;
     localConnectivity := 1;
     boundaryCurvature := 0;
     tangentPlaneVariance := 0;
     densityGradient := 1;
     rigidity := 1 |}.

(** [Array.from({ length: n }, f)], the [k]-th call of [f] being given the
    number of draws made before it. *)
Fixpoint arrayFrom {A : Type} (n : nat) (f : nat -> A) (drawn step : nat)
  : list A :=
  match n with
  | O => []
  | S m => f drawn :: arrayFrom m f (drawn + step)%nat step
  end.

Definition initializePropertyMatrix (random : nat -> R) (c : Config)
  : list (list PropertyCell) :=
  let height := Z.to_nat (gridHeight c) in
  arrayFrom (Z.to_nat (gridWidth c))
    (fun drawn =>
       arrayFrom height (generatePropertyCell random) drawn 2%nat)
    0%nat (2 * height)%nat.

(** *** combinedSDF *)

(** Reading a property of [undefined]. *)
Definition undefinedRead (property : string) : exn :=
  TypeError ("Cannot read properties of undefined: " ++ property)%string.

Definition combinedSDF (g : Geometry) (theta phi : R)
  (props : option PropertyCell) (time : R) : completion R :=
  let c := config g in
  let currentShapeSDF := ShapeMorphEngine.get (currentShape c) in
  let* baseSDF := ShapeMorphEngine.call currentShapeSDF theta phi (radius c) in
  let* baseSDF :=
    match shapeInterpolation c with
    | Some interpolation =>
        let fromSDF := ShapeMorphEngine.get (from interpolation) in
        let toSDF := ShapeMorphEngine.get (to interpolation) in
        let* fromValue := ShapeMorphEngine.call fromSDF theta phi (radius c) in
        let* toValue := ShapeMorphEngine.call toSDF theta phi (radius c) in
        Normal (MathJS.lerp fromValue toValue
                  (progress (shapeTransition (scalarField g))))
    | None => Normal baseSDF
    end in
  match props with
  | None => Throw (undefinedRead "rugosity")
  | Some props =>
      Normal (baseSDF +
              (sin (theta * rugosity props + time) * anisotropy props * 10 +
               cos (phi * sphericity props + time) * convexity props * 5))
  end.

(** *** generateScalarFieldGeometry *)

(** The nine local arrays of the method. *)
Record Arrays : Type := mkArrays {
  positions : list R;
  masses : list R;
  charges : list R;
  symmetryIndices : list R;
  lightProperties : list R;
  valencies : list R;
  volumes : list R;
  densities : list R;
  orientations : list R
}.

Definition noArrays : Arrays := mkArrays [] [] [] [] [] [] [] [] [].

Definition theta_of (c : Config) (i : Z) : R :=
  IZR i / IZR (polygonCount c) * PI * 2.

Definition phi_of (c : Config) (i : Z) : R :=
  IZR i / IZR (polygonCount c) * PI.

Definition gridX_of (c : Config) (i : Z) : Z :=
  MathJS.floor (theta_of c i / (PI * 2) * IZR (gridWidth c)).

Definition gridY_of (c : Config) (i : Z) : Z :=
  MathJS.floor (phi_of c i / PI * IZR (gridHeight c)).

(** The indices the matrix is read at: [Math.min(gridX, gridWidth - 1)] and
    [Math.min(gridY, gridHeight - 1)]. *)
Definition lookupX (c : Config) (i : Z) : Z :=
  Z.min (gridX_of c i) (gridWidth c - 1).

Definition lookupY (c : Config) (i : Z) : Z :=
  Z.min (gridY_of c i) (gridHeight c - 1).

(** One turn of the loop body, for vertex [i]. *)
Definition vertex (g : Geometry) (i : Z) (a : Arrays) : completion Arrays :=
  let c := config g in
  let theta := theta_of c i in
  let phi := phi_of c i in
  match index (propertyMatrix g) (lookupX c i) with
  | None => Throw (undefinedRead "gridY")
  | Some column =>
      let props := index column (lookupY c i) in
      let* dynamicRadius :=
        combinedSDF g theta phi props (time (scalarField g)) in
      match props with
      | None => Throw (undefinedRead "sphericity")
      | Some props =>
          let x := dynamicRadius * sin phi * cos theta in
          let y := dynamicRadius * sin phi * sin theta in
          let z := dynamicRadius * cos phi in
          Normal (mkArrays
            (positions a ++ [x; y; z])
            (masses a ++ [10 + sphericity props * 5])
            (charges a ++ [(rugosity props - 0.5) * 2])
            (symmetryIndices a ++ [IZR (MathJS.floor (axisSymmetry props * 8))])
            (lightProperties a ++ [0.3 + smoothness props * 0.5;
                                   0.2 + edgeSharpness props * 0.3])
            (valencies a ++ [IZR (MathJS.floor (localConnectivity props * 4))])
            (volumes a ++ [10 + densityGradient props * 10])
            (densities a ++ [0.2 + rigidity props * 0.3])
            (orientations a ++ [0; 1; 0]))
      end
  end.

(** [for (let i = 0; i < polygonCount; i++)]: the values [i] takes. *)
Definition vertexIndices (c : Config) : list Z :=
  map Z.of_nat (seq 0 (Z.to_nat (polygonCount c))).

Fixpoint sweep (g : Geometry) (indices : list Z) (a : Arrays)
  : completion Arrays :=
  match indices with
  | [] => Normal a
  | i :: rest => let* a' := vertex g i a in sweep g rest a'
  end.

(** The nine [setAttribute] calls that follow the loop. *)
Definition publish (a : Arrays) (attrs : list (string * BufferAttribute))
  : list (string * BufferAttribute) :=
  let attrs := setAttribute "position" (mkAttribute (positions a) 3) attrs in
  let attrs := setAttribute "mass" (mkAttribute (masses a) 1) attrs in
  let attrs := setAttribute "charge" (mkAttribute (charges a) 1) attrs in
  let attrs :=
    setAttribute "symmetryIndex" (mkAttribute (symmetryIndices a) 1) attrs in
  let attrs :=
    setAttribute "lightProperties" (mkAttribute (lightProperties a) 2) attrs in
  let attrs := setAttribute "valency" (mkAttribute (valencies a) 1) attrs in
  let attrs := setAttribute "volume" (mkAttribute (volumes a) 1) attrs in
  let attrs := setAttribute "density" (mkAttribute (densities a) 1) attrs in
  setAttribute "orientation" (mkAttribute (orientations a) 3) attrs.

Definition generateScalarFieldGeometry (w : World) : completion unit * World :=
  let g := this w in
  match sweep g (vertexIndices (config g)) noArrays with
  | Normal a =>
      (Normal tt,
       mkWorld (set_attributes (publish a (attributes g)) g)
         (Logger._log (logger w) Logger.info
            "SphericalCustomGeometry Generated"))
  | Throw e =>
      (Throw e,
       mkWorld g
         (Logger._log (logger w) Logger.error
            "SphericalCustomGeometry Generation Failed"))
  | Escapes m => (Escapes m, w)
  end.

(** *** morphToShape *)

Definition morphToShape (w : World) (targetShape : string)
  (duration : option R) : World :=
  let duration := match duration with Some d => d | None => 1 end in
  let g := this w in
  let currentShape := currentShape (config g) in
  if negb (ShapeMorphEngine.truthy (ShapeMorphEngine.get targetShape)) then
    mkWorld g
      (Logger._log (logger w) Logger.error "Invalid Shape Morphing Target")
  else
    let g :=
      set_config
        (set_shapeInterpolation
           (Some (mkInterpolation currentShape targetShape duration))
           (config g)) g in
    let g :=
      set_scalarField
        (set_shapeTransition
           (mkTransition (Some currentShape) (Some targetShape) 0)
           (scalarField g)) g in
    let g := set_config (set_currentShape targetShape (config g)) g in
    mkWorld g
      (Logger._log (logger w) Logger.info "Shape Morphing Initiated").

(** *** update *)

(** Lines 241-260 of [update]: the clock and the interpolation step that
    precede the regeneration.  The quotient is that of the reals: it is the
    code's for a duration other than 0, and says nothing of the infinite or
    undefined quotient the code computes for a duration of 0. *)
Definition advance (w : World) (deltaTime : R) : World :=
  let g := this w in
  let g :=
    set_scalarField
      (set_time (time (scalarField g) + deltaTime * morphSpeed (config g))
         (scalarField g)) g in
  match shapeInterpolation (config g) with
  | Some interpolation =>
      let transition := shapeTransition (scalarField g) in
      let g :=
        set_scalarField
          (set_shapeTransition
             (set_progress
                (MathJS.min
                   (progress transition + deltaTime / duration interpolation)
                   1)
                transition)
             (scalarField g)) g in
      if Rge_dec (progress (shapeTransition (scalarField g))) 1 then
        mkWorld (set_config (set_shapeInterpolation None (config g)) g)
          (Logger._log (logger w) Logger.info "Shape Morphing Complete")
      else mkWorld g (logger w)
  | None => mkWorld g (logger w)
  end.

Definition update (w : World) (deltaTime : R) : completion unit * World :=
  if dynamicEvolution (config (this w)) then
    match generateScalarFieldGeometry (advance w deltaTime) with
    | (Normal _, w) =>
        (Normal tt,
         mkWorld (this w)
           (Logger._log (logger w) Logger.debug "Geometry Updated"))
    | abrupt => abrupt
    end
  else (Normal tt, w).

(** *** constructor *)

(** The [config] argument; an absent property is [None]. *)
Record Options : Type := mkOptions {
  opt_gridWidth : option Z;
  opt_gridHeight : option Z;
  opt_morphSpeed : option R;
  opt_dynamicEvolution : option bool;
  opt_currentShape : option string
}.

(** [config = {}] *)
Definition noOptions : Options := mkOptions None None None None None.

(** [v || d] at each type: [undefined], [0], [false] and the empty string
    are falsy. *)
Definition orZ (v : option Z) (d : Z) : Z :=
  match v with
  | Some z => if (z =? 0)%Z then d else z
  | None => d
  end.

Definition orR (v : option R) (d : R) : R :=
  match v with
  | Some r => if Req_dec_T r 0 then d else r
  | None => d
  end.

Definition orBool (v : option bool) (d : bool) : bool :=
  match v with
  | Some true => true
  | _ => d
  end.

Definition orString (v : option string) (d : string) : string :=
  match v with
  | Some EmptyString => d
  | Some s => s
  | None => d
  end.

Definition initialConfig (radius : R) (polygonCount : Z) (o : Options)
  : Config :=
  mkConfig radius polygonCount
    (orZ (opt_gridWidth o) 200)
    (orZ (opt_gridHeight o) 200)
    (orR (opt_morphSpeed o) 0.5)
    (orBool (opt_dynamicEvolution o) true)
    (orString (opt_currentShape o) "Sphere")
    None.

(** [new SphericalCustomGeometry(radius, polygonCount, config)]; an omitted
    argument is [None].  [random] is the stream [Math.random] draws from. *)
Definition constructor (random : nat -> R) (lg : Logger.t)
  (radius : option R) (polygonCount : option Z) (config : option Options)
  : completion unit * World :=
  let radius := match radius with Some r => r | None => 100 end in
  let polygonCount := match polygonCount with Some n => n | None => 500%Z end in
  let o := match config with Some o => o | None => noOptions end in
  let c := initialConfig radius polygonCount o in
  generateScalarFieldGeometry
    (mkWorld
       (mkGeometry c
          (ShapeMorphEngine.mk radius)
          (initializePropertyMatrix random c)
          (mkScalarField 0 (mkTransition None None 0))
          [])
       lg).

End SphericalCustomGeometry.

(** ** The driver and the specification's own formulas *)

Module Spec.

Import SphericalCustomGeometry.

(** The profile table of the specification, by identifier. *)
Definition profile (id : string) (theta phi r : R) : option R :=
  if String.eqb id "Sphere" then Some r
  else if String.eqb id "Cube" then
    Some (r * Rmax (Rabs (sin theta)) (Rabs (cos phi)))
  else if String.eqb id "Cone" then Some (r * (1 - phi / PI))
  else if String.eqb id "Cylinder" then Some (r * sin phi)
  else if String.eqb id "Torus" then Some (r + 0.3 * r * cos phi)
  else if String.eqb id "Parabola" then
    Some (r * (1 - Rsqr (2 * phi / PI - 1)))
  else None.

Definition ids : list string :=
  [ "Sphere"; "Cube"; "Cone"; "Cylinder"; "Torus"; "Parabola" ]%string.

(** The property-driven modulation of the evaluator. *)
Definition modulation (theta phi : R) (cell : PropertyCell) (time : R) : R :=
  sin (theta * rugosity cell + time) * anisotropy cell * 10 +
  cos (phi * sphericity cell + time) * convexity cell * 5.

(** What the external driver does to one engine after construction. *)
Inductive operation : Type :=
| requestMorph (target : string) (duration : option R)
| tick (deltaTime : R).

(** One operation; a driver that catches what [update] throws goes on with
    the engine as the throw left it. *)
Definition step (w : World) (o : operation) : World :=
  match o with
  | requestMorph target duration => morphToShape w target duration
  | tick deltaTime => snd (update w deltaTime)
  end.

Definition run (w : World) (ops : list operation) : World :=
  fold_left step ops w.

(** A morph request with a positive duration (the default is 1), a tick
    with a non-negative time delta. *)
Definition guarded (o : operation) : Prop :=
  match o with
  | requestMorph _ (Some duration) => 0 < duration
  | requestMorph _ None => True
  | tick deltaTime => 0 <= deltaTime
  end.

(** Observations of the transition state machine. *)
Definition progressOf (w : World) : R :=
  progress (shapeTransition (scalarField (this w))).

Definition transitionOf (w : World) : option ShapeInterpolation :=
  shapeInterpolation (config (this w)).

Definition shapeOf (w : World) : string :=
  currentShape (config (this w)).

Definition timeOf (w : World) : R :=
  time (scalarField (this w)).

(** The engine as the application builds it when every argument is left
    to its default. *)
Definition defaultEngine (random : nat -> R) : World :=
  snd (constructor random Logger.loggerInstance None None None).

(** A cell as [generatePropertyCell] makes it when both draws are 0, and a
    one-vertex, one-cell engine around it. *)
Definition flatCell : PropertyCell := generatePropertyCell (fun _ => 0) 0.

Definition unitEngine (shape : string)
  (interpolation : option ShapeInterpolation) (progress : R) : Geometry :=
  mkGeometry
    (mkConfig 1 1 1 1 0.5 true shape interpolation)
    (ShapeMorphEngine.mk 1)
    [[flatCell]]
    (mkScalarField 0 (mkTransition None None progress))
    [].

(** The matrix has the dimensions the configuration names. *)
Definition matrixFits (g : Geometry) : Prop :=
  List.length (propertyMatrix g) = Z.to_nat (gridWidth (config g)) /\
  Forall (fun column => List.length column = Z.to_nat (gridHeight (config g)))
    (propertyMatrix g).

Definition registered (id : string) : Prop :=
  exists f, ShapeMorphEngine.get id = ShapeMorphEngine.Own f.

(** Every shape the evaluator looks up is an own property of the table. *)
Definition shapesRegistered (g : Geometry) : Prop :=
  registered (currentShape (config g)) /\
  forall i, shapeInterpolation (config g) = Some i ->
            registered (from i) /\ registered (to i).

(** A buffer from an earlier rebuild. *)
Definition staleBuffer : list (string * BufferAttribute) :=
  [ ("position", mkAttribute [1; 2; 3] 3); ("mass", mkAttribute [15] 1) ]%string.

(** [new SphericalCustomGeometry(1, 1, { gridWidth: 1, gridHeight: 1 })], and
    that engine after [morphToShape("valueOf", 2)]: the name passes the
    validation, being that of a member the table inherits. *)
Definition builtEngine : World :=
  snd (constructor (fun _ => 0) Logger.loggerInstance (Some 1) (Some 1%Z)
         (Some (mkOptions (Some 1%Z) (Some 1%Z) None None None))).

Definition misledEngine : World := morphToShape builtEngine "valueOf" (Some 2).

(** The engines on which a regeneration goes through. *)
Definition wellFormed (g : Geometry) : Prop :=
  matrixFits g /\ shapesRegistered g /\
  (1 <= gridWidth (config g))%Z /\ (1 <= gridHeight (config g))%Z.

(** What the transition state machine promises. *)
Definition transitionSound (w : World) : Prop :=
  0 <= progressOf w <= 1 /\
  forall i, transitionOf w = Some i -> progressOf w < 1 /\ 0 < duration i.

End Spec.

(** ** utils/logger.js: setLogLevel *)

Module LoggerControl.

Import Logger.

(** [this.logLevels.hasOwnProperty(name)], with the level [name] names. *)
Definition levelOfString (name : string) : option level :=
  if String.eqb name "error" then Some error
  else if String.eqb name "warn" then Some warn
  else if String.eqb name "info" then Some info
  else if String.eqb name "debug" then Some debug
  else if String.eqb name "trace" then Some trace
  else None.

Definition nameOf (l : level) : string :=
  match l with
  | error => "error" | warn => "warn" | info => "info"
  | debug => "debug" | trace => "trace"
  end.

(** What [setLogLevel] writes to the console itself, past [_log]. *)
Inductive channel : Type := consoleLog | consoleWarn.

(** [setLogLevel(level)] *)
Definition setLogLevel (lg : t) (name : string) : t * list (channel * string) :=
  match levelOfString name with
  | Some l => (mk l (console lg), [ (consoleLog, "Log Level Updated"%string) ])
  | None =>
      (lg,
       [ (consoleWarn,
          "Invalid log level: " ++ name ++ ". Log level remains "
          ++ nameOf (logLevel lg) ++ ".");
         (consoleLog, "Valid log levels are:") ]%string)
  end.

End LoggerControl.

(** ** The earlier revisions of geometries/sphericalCustomGeometry.js *)

Module Legacy.

Import SphericalCustomGeometry.

(** [combinedSDF] before shape morphing was added. *)
Definition combinedSDF (radius theta phi : R) (props : option PropertyCell)
  (time : R) : completion R :=
  match props with
  | None => Throw (undefinedRead "rugosity")
  | Some props =>
      Normal (radius +
              (sin (theta * rugosity props + time) * anisotropy props * 10 +
               cos (phi * sphericity props + time) * convexity props * 5))
  end.

(** [a % b] on numbers that hold integers. *)
Definition remainder (a b : Z) : Z := Z.rem a b.

(** One turn of the loop of the first revision, whose constructor takes a
    radius and a vertex count and reads no property matrix. *)
Definition staticVertex (radius : R) (polygonCount i : Z) (a : Arrays) : Arrays :=
  let theta := IZR i / IZR polygonCount * PI * 2 in
  let phi := IZR i / IZR polygonCount * PI in
  let r := radius + IZR i * radius / IZR polygonCount in
  let x := r * sin phi * cos theta in
  let y := r * sin phi * sin theta in
  let z := r * cos phi in
  mkArrays
    (positions a ++ [x; y; z])
    (masses a ++ [10 + IZR (remainder i 5)])
    (charges a ++ [IZR (remainder i 3) - 1])
    (symmetryIndices a ++ [IZR (remainder i 8)])
    (lightProperties a ++ [0.3 + IZR (remainder i 10) / 10; 0.2])
    (valencies a ++ [IZR (remainder i 4)])
    (volumes a ++ [10 + IZR (remainder i 5) * 5])
    (densities a ++ [0.2 + IZR (remainder i 5) / 10])
    (orientations a ++ [0; 1; 0]).

End Legacy.

(** ** Observations used by the properties of the engine *)

Module Observations.

Import SphericalCustomGeometry.
Import Spec.

(** The attributes a regeneration publishes, with their item sizes. *)
Definition attributeLayout : list (string * Z) :=
  [ ("position", 3); ("mass", 1); ("charge", 1); ("symmetryIndex", 1);
    ("lightProperties", 2); ("valency", 1); ("volume", 1); ("density", 1);
    ("orientation", 3) ]%string%Z.

(** How each [update] of a run completes, in order. *)
Fixpoint outcomes (w : World) (ops : list operation) : list (completion unit) :=
  match ops with
  | [] => []
  | requestMorph target duration :: rest =>
      outcomes (morphToShape w target duration) rest
  | tick deltaTime :: rest =>
      fst (update w deltaTime) :: outcomes (snd (update w deltaTime)) rest
  end.

(** The time deltas of a run, added up. *)
Fixpoint elapsed (ops : list operation) : R :=
  match ops with
  | [] => 0
  | requestMorph _ _ :: rest => elapsed rest
  | tick deltaTime :: rest => deltaTime + elapsed rest
  end.

(** A request whose target is not the name of a member that every object
    inherits. *)
Definition plainRequest (o : operation) : Prop :=
  match o with
  | requestMorph target _ =>
      existsb (String.eqb target) ShapeMorphEngine.objectPrototypeKeys = false
  | tick _ => True
  end.

(** The part of an engine that no method assigns after construction. *)
Definition fixedPart (g : Geometry)
  : R * Z * Z * Z * R * bool * list (list PropertyCell) * ShapeMorphEngine.t :=
  (radius (config g), polygonCount (config g), gridWidth (config g),
   gridHeight (config g), morphSpeed (config g), dynamicEvolution (config g),
   propertyMatrix g, morphEngine g).

(** The fields of a cell that [generatePropertyCell] sets to constants. *)
Definition constantFields (cell : PropertyCell) : Prop :=
  sphericity cell = 1 /\ convexity cell = 1 /\ smoothness cell = 1 /\
  edgeSharpness cell = 0.5 /\ axisSymmetry cell = 1 /\
  localConnectivity cell = 1 /\ densityGradient cell = 1 /\ rigidity cell = 1.

(** The two drawn fields of a cell are in [0, 1), as [Math.random] is. *)
Definition unitDraws (cell : PropertyCell) : Prop :=
  0 <= anisotropy cell < 1 /\ 0 <= rugosity cell < 1.

Definition squaredNorm (x y z : R) : R := x * x + y * y + z * z.

(** The lengths of the nine arrays, and what one vertex adds to each. *)
Definition sizes (a : Arrays) : list nat :=
  [ List.length (positions a); List.length (masses a);
    List.length (charges a); List.length (symmetryIndices a);
    List.length (lightProperties a); List.length (valencies a);
    List.length (volumes a); List.length (densities a);
    List.length (orientations a) ].

Definition rowSizes : list nat := [3; 1; 1; 1; 2; 1; 1; 1; 3]%nat.

(** The array an engine holds under an attribute name ([[]] when it holds
    none). *)
Definition published (w : World) (name : string) : list R :=
  match ShapeMorphEngine.assoc name (attributes (this w)) with
  | Some a => array a
  | None => []
  end.

End Observations.

Import SphericalCustomGeometry.
Import Spec.
Import Observations.

(** ** Shape profiles *)

Section Profiles.

Variables theta phi r : R.

(** A table identifier is an own property of [shapeSDFs], and conversely. *)
Lemma profile_defined_iff_own (id : string) :
  (exists f, ShapeMorphEngine.get id = ShapeMorphEngine.Own f) <->
  (exists v, profile id theta phi r = Some v).
Proof.
  unfold ShapeMorphEngine.get, profile; cbn [ShapeMorphEngine.assoc ShapeMorphEngine.shapeSDFs].
  rewrite !(String.eqb_sym _ id).
  repeat (destruct (String.eqb id _); [split; intros _; eexists; reflexivity | ]).
  split; intros [x Hx]; [ | discriminate ].
  destruct (existsb _ _); discriminate.
Qed.

(** C5: each of the six registered profiles computes the formula the
    specification's table gives for it, at every [theta], [phi] and base
    radius [r]; in particular the Sphere profile is [r]. *)
Theorem shape_profiles_match_table (id : string) :
  In id ids ->
  exists f,
    ShapeMorphEngine.get id = ShapeMorphEngine.Own f /\
    profile id theta phi r = Some (f theta phi r).
Proof.
  unfold ids; cbn [In].
  intros [<- | [<- | [<- | [<- | [<- | [<- | []]]]]]];
    eexists; (split; [reflexivity | ]);
    unfold profile; cbn [String.eqb Ascii.eqb Bool.eqb]; f_equal.
  - unfold ShapeMorphEngine.Torus; ring.
  - unfold ShapeMorphEngine.Parabola, MathJS.pow, Rsqr; ring.
Qed.

End Profiles.

(** C5, at an instance: the Torus profile at the origin of the angles. *)
Lemma shape_profiles_match_table_witness :
  exists f,
    ShapeMorphEngine.get "Torus" = ShapeMorphEngine.Own f /\
    profile "Torus" 0 0 100 = Some (f 0 0 100).
Proof.
  apply (shape_profiles_match_table 0 0 100 "Torus").
  unfold ids; cbn [In]; tauto.
Defined.

(** ** The field evaluator *)

(** An identifier of the table is an own property of [shapeSDFs], whose
    function computes the table's formula. *)
Lemma profile_own (id : string) (theta phi r v : R) :
  profile id theta phi r = Some v ->
  exists f, ShapeMorphEngine.get id = ShapeMorphEngine.Own f /\ v = f theta phi r.
Proof.
  unfold profile.
  repeat (destruct (String.eqb id _) eqn:E;
          [ apply String.eqb_eq in E; subst id; intros [= <-];
            eexists; split; [reflexivity | ] | clear E ]);
    try discriminate; try reflexivity.
  - unfold ShapeMorphEngine.Torus; ring.
  - unfold ShapeMorphEngine.Parabola, MathJS.pow, Rsqr; ring.
Qed.

Lemma call_profile (id : string) (theta phi r v : R) :
  profile id theta phi r = Some v ->
  ShapeMorphEngine.call (ShapeMorphEngine.get id) theta phi r = Normal v.
Proof.
  intros H; destruct (profile_own _ _ _ _ _ H) as (f & -> & ->); reflexivity.
Qed.

(** C4: with [current] the radius the profile of [currentShape] gives at the
    angle, the evaluator returns [current] plus the modulation when no
    interpolation is in progress, and the linear blend of the [from] and [to]
    radii by the transition's progress plus the modulation when one is; the
    sum is returned as it is, so that it can exceed the base radius and can
    be negative. *)
Theorem combinedSDF_formula :
  (forall (g : Geometry) (theta phi : R) (cell : PropertyCell) (t current : R),
     profile (currentShape (config g)) theta phi (radius (config g))
       = Some current ->
     (shapeInterpolation (config g) = None ->
      combinedSDF g theta phi (Some cell) t
        = Normal (current + modulation theta phi cell t)) /\
     (forall i a b,
        shapeInterpolation (config g) = Some i ->
        profile (from i) theta phi (radius (config g)) = Some a ->
        profile (to i) theta phi (radius (config g)) = Some b ->
        combinedSDF g theta phi (Some cell) t
          = Normal (a + (b - a) * progress (shapeTransition (scalarField g))
                    + modulation theta phi cell t))) /\
  (exists g theta phi cell t v,
     combinedSDF g theta phi (Some cell) t = Normal v /\ radius (config g) < v) /\
  (exists g theta phi cell t v,
     combinedSDF g theta phi (Some cell) t = Normal v /\ v < 0).
Proof.
  split; [ | split ].
  - intros g theta phi cell t current Hcur; unfold combinedSDF.
    rewrite (call_profile _ _ _ _ _ Hcur); cbn [bind].
    split.
    + intros ->; reflexivity.
    + intros i a b -> Ha Hb.
      rewrite (call_profile _ _ _ _ _ Ha), (call_profile _ _ _ _ _ Hb).
      cbn [bind]; unfold MathJS.lerp, modulation; f_equal; ring.
  - exists (unitEngine "Sphere" None 0), 0, 0, flatCell, 0, 6.
    split; [ | cbn; lra ].
    unfold combinedSDF; cbn.
    rewrite !Rmult_0_l, !Rplus_0_l, sin_0, cos_0; f_equal; ring.
  - exists (unitEngine "Sphere" None 0), 0, 0, flatCell, PI, (-4).
    split; [ | lra ].
    unfold combinedSDF; cbn.
    rewrite !Rmult_0_l, !Rplus_0_l, sin_PI, cos_PI; f_equal; ring.
Qed.

(** C4, at an instance: half-way from Sphere to Cone at the pole. *)
Lemma combinedSDF_formula_witness :
  combinedSDF
    (unitEngine "Cone" (Some (mkInterpolation "Sphere" "Cone" 2)) 0.5)
    0 0 (Some flatCell) 0
  = Normal (1 + (1 * (1 - 0 / PI) - 1) * 0.5 + modulation 0 0 flatCell 0).
Proof.
  refine (proj2 (proj1 combinedSDF_formula
                   (unitEngine "Cone" (Some (mkInterpolation "Sphere" "Cone" 2)) 0.5)
                   0 0 flatCell 0 (1 * (1 - 0 / PI)) _)
            (mkInterpolation "Sphere" "Cone" 2) 1 (1 * (1 - 0 / PI)) _ _ _);
    reflexivity.
Defined.

(** ** Grid lookups *)

Section Grid.

Variable c : Config.
Variable i : Z.
Hypothesis vertex_in_range : (0 <= i < polygonCount c)%Z.

Lemma sweep_fraction : 0 <= IZR i / IZR (polygonCount c) < 1.
Proof.
  assert (0 < IZR (polygonCount c)) by (apply IZR_lt; lia).
  assert (0 <= IZR i) by (apply IZR_le; lia).
  assert (IZR i < IZR (polygonCount c)) by (apply IZR_lt; lia).
  split.
  - apply Rmult_le_pos; [ assumption | left; apply Rinv_0_lt_compat; assumption ].
  - apply Rmult_lt_reg_r with (IZR (polygonCount c)); [ assumption | ].
    unfold Rdiv; rewrite Rmult_assoc, Rinv_l by lra; lra.
Qed.

Lemma gridX_fraction :
  theta_of c i / (PI * 2) * IZR (gridWidth c)
  = IZR i / IZR (polygonCount c) * IZR (gridWidth c).
Proof.
  unfold theta_of; pose proof PI_neq0.
  assert (IZR (polygonCount c) <> 0) by (apply not_0_IZR; lia).
  field; split; assumption.
Qed.

Lemma gridY_fraction :
  phi_of c i / PI * IZR (gridHeight c)
  = IZR i / IZR (polygonCount c) * IZR (gridHeight c).
Proof.
  unfold phi_of; pose proof PI_neq0.
  assert (IZR (polygonCount c) <> 0) by (apply not_0_IZR; lia).
  field; split; assumption.
Qed.

Lemma floor_of_fraction (n : Z) :
  (1 <= n)%Z ->
  (0 <= MathJS.floor (IZR i / IZR (polygonCount c) * IZR n) <= n - 1)%Z.
Proof.
  intros Hn; pose proof sweep_fraction as [Hlo Hhi].
  assert (0 < IZR n) by (apply IZR_lt; lia).
  unfold MathJS.floor; split.
  - apply Zfloor_lub; apply Rmult_le_pos; lra.
  - pose proof (Zfloor_bound (IZR i / IZR (polygonCount c) * IZR n)) as [Hb _].
    assert (IZR (Zfloor (IZR i / IZR (polygonCount c) * IZR n)) < IZR n) as Hlt.
    { apply Rle_lt_trans with (1 := Hb).
      rewrite <- (Rmult_1_l (IZR n)) at 2.
      apply Rmult_lt_compat_r; lra. }
    apply lt_IZR in Hlt; lia.
Qed.

Lemma gridX_range :
  (1 <= gridWidth c)%Z -> (0 <= gridX_of c i <= gridWidth c - 1)%Z.
Proof.
  intros H; unfold gridX_of; rewrite gridX_fraction.
  apply floor_of_fraction; assumption.
Qed.

Lemma gridY_range :
  (1 <= gridHeight c)%Z -> (0 <= gridY_of c i <= gridHeight c - 1)%Z.
Proof.
  intros H; unfold gridY_of; rewrite gridY_fraction.
  apply floor_of_fraction; assumption.
Qed.

End Grid.

Lemma arrayFrom_length {A : Type} (n : nat) (f : nat -> A) (drawn step : nat) :
  List.length (arrayFrom n f drawn step) = n.
Proof.
  revert drawn; induction n as [ | n IH]; intros drawn; cbn; [ | rewrite IH ];
    reflexivity.
Qed.

Lemma arrayFrom_Forall {A : Type} (P : A -> Prop) (n : nat) (f : nat -> A)
  (drawn step : nat) :
  (forall d, P (f d)) -> Forall P (arrayFrom n f drawn step).
Proof.
  intros Hf; revert drawn; induction n as [ | n IH]; intros drawn; cbn;
    constructor; auto.
Qed.

Lemma index_in_range {A : Type} (l : list A) (i : Z) :
  (0 <= i < Z.of_nat (List.length l))%Z -> exists x, index l i = Some x /\ In x l.
Proof.
  intros H; unfold index.
  destruct (Z.ltb_spec i 0) as [ | _]; [ lia | ].
  destruct (nth_error l (Z.to_nat i)) as [x | ] eqn:E.
  - exists x; split; [ reflexivity | eapply nth_error_In; eassumption ].
  - apply nth_error_None in E; lia.
Qed.

(** The matrix [initializePropertyMatrix] builds has [gridWidth] columns of
    [gridHeight] cells. *)
Lemma initializePropertyMatrix_fits (random : nat -> R) (c : Config) :
  List.length (initializePropertyMatrix random c) = Z.to_nat (gridWidth c) /\
  Forall (fun column => List.length column = Z.to_nat (gridHeight c))
    (initializePropertyMatrix random c).
Proof.
  unfold initializePropertyMatrix; split.
  - apply arrayFrom_length.
  - apply arrayFrom_Forall; intros d; apply arrayFrom_length.
Qed.

Lemma matrix_lookup (g : Geometry) (i : Z) :
  matrixFits g ->
  (0 <= i < polygonCount (config g))%Z ->
  (1 <= gridWidth (config g))%Z ->
  (1 <= gridHeight (config g))%Z ->
  exists column cell,
    index (propertyMatrix g) (lookupX (config g) i) = Some column /\
    index column (lookupY (config g) i) = Some cell.
Proof.
  intros [Hw Hh] Hi Hgw Hgh.
  pose proof (gridX_range _ _ Hi Hgw); pose proof (gridY_range _ _ Hi Hgh).
  destruct (index_in_range (propertyMatrix g) (lookupX (config g) i))
    as (column & Hc & Hin); [ unfold lookupX; lia | ].
  rewrite Forall_forall in Hh; specialize (Hh _ Hin).
  destruct (index_in_range column (lookupY (config g) i))
    as (cell & Hcell & _); [ unfold lookupY; lia | ].
  exists column, cell; split; assumption.
Qed.

(** C9: for a vertex index in [0, polygonCount) and grid dimensions of at
    least 1, both indices the matrix is read at lie inside the grid, and the
    two reads of the matrix built at construction find a cell. *)
Theorem grid_lookup_in_bounds (random : nat -> R) (c : Config) (i : Z) :
  (0 <= i < polygonCount c)%Z ->
  (1 <= gridWidth c)%Z ->
  (1 <= gridHeight c)%Z ->
  (0 <= lookupX c i <= gridWidth c - 1)%Z /\
  (0 <= lookupY c i <= gridHeight c - 1)%Z /\
  exists column cell,
    index (initializePropertyMatrix random c) (lookupX c i) = Some column /\
    index column (lookupY c i) = Some cell.
Proof.
  intros Hi Hgw Hgh.
  pose proof (gridX_range _ _ Hi Hgw); pose proof (gridY_range _ _ Hi Hgh).
  split; [ unfold lookupX; lia | split; [ unfold lookupY; lia | ] ].
  apply (matrix_lookup
           (mkGeometry c (ShapeMorphEngine.mk 0) (initializePropertyMatrix random c)
              (mkScalarField 0 (mkTransition None None 0)) []));
    try assumption.
  apply initializePropertyMatrix_fits.
Qed.

(** C9, at an instance: the last vertex of the default configuration. *)
Lemma grid_lookup_in_bounds_witness :
  let c := initialConfig 100 500 noOptions in
  (0 <= lookupX c 499 <= 199)%Z /\
  (0 <= lookupY c 499 <= 199)%Z /\
  exists column cell,
    index (initializePropertyMatrix (fun _ => 0) c) (lookupX c 499) = Some column /\
    index column (lookupY c 499) = Some cell.
Proof.
  apply (grid_lookup_in_bounds (fun _ => 0) (initialConfig 100 500 noOptions) 499);
    cbn; lia.
Defined.

(** ** Regeneration of the buffer *)

Lemma bind_Normal {A B : Type} (c : completion A) (k : A -> completion B) (b : B) :
  bind c k = Normal b -> exists a, c = Normal a /\ k a = Normal b.
Proof. destruct c; cbn; intros H; try discriminate; eauto. Qed.

Lemma sweep_app (g : Geometry) (pre post : list Z) (a : Arrays) :
  sweep g (pre ++ post) a = let* a' := sweep g pre a in sweep g post a'.
Proof.
  revert a; induction pre as [ | i pre IH]; intros a; cbn; [ reflexivity | ].
  destruct (vertex g i a); cbn; auto.
Qed.

(** The loop body reads the configuration, the matrix and the scalar field,
    and nothing else of the engine. *)
Lemma vertex_inputs (g1 g2 : Geometry) (i : Z) (a : Arrays) :
  config g1 = config g2 ->
  propertyMatrix g1 = propertyMatrix g2 ->
  scalarField g1 = scalarField g2 ->
  vertex g1 i a = vertex g2 i a.
Proof.
  destruct g1, g2; cbn; intros -> -> ->; reflexivity.
Qed.

Lemma sweep_inputs (g1 g2 : Geometry) (indices : list Z) (a : Arrays) :
  config g1 = config g2 ->
  propertyMatrix g1 = propertyMatrix g2 ->
  scalarField g1 = scalarField g2 ->
  sweep g1 indices a = sweep g2 indices a.
Proof.
  intros Hc Hm Hf; revert a; induction indices as [ | i rest IH]; intros a; cbn;
    [ reflexivity | ].
  rewrite (vertex_inputs g1 g2 i a Hc Hm Hf).
  destruct (vertex g2 i a); cbn; auto.
Qed.

Lemma vertexIndices_in_range (c : Config) :
  Forall (fun i => (0 <= i < polygonCount c)%Z) (vertexIndices c).
Proof.
  unfold vertexIndices; rewrite Forall_forall; intros i Hi.
  apply in_map_iff in Hi as (n & <- & Hn); apply in_seq in Hn; lia.
Qed.

Section WellFormed.

Variable g : Geometry.
Hypothesis fits : matrixFits g.
Hypothesis shapes : shapesRegistered g.
Hypothesis wide : (1 <= gridWidth (config g))%Z.
Hypothesis high : (1 <= gridHeight (config g))%Z.

Lemma combinedSDF_normal (theta phi : R) (cell : PropertyCell) (t : R) :
  exists v, combinedSDF g theta phi (Some cell) t = Normal v.
Proof.
  destruct shapes as [[fc Hc] Hi]; unfold combinedSDF; rewrite Hc; cbn [ShapeMorphEngine.call bind].
  destruct (shapeInterpolation (config g)) as [i | ]; [ | eexists; reflexivity ].
  destruct (Hi i eq_refl) as [[ff ->] [ft ->]]; cbn; eexists; reflexivity.
Qed.

Lemma vertex_normal (i : Z) (a : Arrays) :
  (0 <= i < polygonCount (config g))%Z -> exists a', vertex g i a = Normal a'.
Proof.
  intros Hi; destruct (matrix_lookup g i fits Hi wide high) as (column & cell & Hx & Hy).
  unfold vertex; rewrite Hx, Hy.
  destruct (combinedSDF_normal (theta_of (config g) i) (phi_of (config g) i) cell
              (time (scalarField g))) as [v ->].
  cbn [bind]; eexists; reflexivity.
Qed.

Lemma sweep_normal (indices : list Z) (a : Arrays) :
  Forall (fun i => (0 <= i < polygonCount (config g))%Z) indices ->
  exists a', sweep g indices a = Normal a'.
Proof.
  intros H; revert a; induction H as [ | i rest Hi _ IH]; intros a; cbn;
    [ eexists; reflexivity | ].
  destruct (vertex_normal i a Hi) as [a' ->]; cbn [bind]; apply IH.
Qed.

End WellFormed.

(** On a well-formed engine the regeneration returns normally. *)
Lemma generateScalarFieldGeometry_normal (w : World) :
  matrixFits (this w) ->
  shapesRegistered (this w) ->
  (1 <= gridWidth (config (this w)))%Z ->
  (1 <= gridHeight (config (this w)))%Z ->
  fst (generateScalarFieldGeometry w) = Normal tt.
Proof.
  intros Hm Hs Hw Hh; unfold generateScalarFieldGeometry.
  destruct (sweep_normal (this w) Hm Hs Hw Hh _ noArrays
              (vertexIndices_in_range (config (this w)))) as [a ->].
  reflexivity.
Qed.

(** The regeneration writes the attributes and the log only. *)
Lemma generateScalarFieldGeometry_frame (w : World) :
  let w' := snd (generateScalarFieldGeometry w) in
  config (this w') = config (this w) /\
  propertyMatrix (this w') = propertyMatrix (this w) /\
  scalarField (this w') = scalarField (this w) /\
  morphEngine (this w') = morphEngine (this w).
Proof.
  unfold generateScalarFieldGeometry.
  destruct (sweep _ _ _); cbn; repeat split; reflexivity.
Qed.

Lemma assoc_setAttribute (name key : string) (a : BufferAttribute)
  (attrs : list (string * BufferAttribute)) :
  ShapeMorphEngine.assoc key (setAttribute name a attrs)
  = if String.eqb name key then Some a else ShapeMorphEngine.assoc key attrs.
Proof.
  induction attrs as [ | [k v] rest IH]; cbn.
  - reflexivity.
  - destruct (String.eqb k name) eqn:E; cbn.
    + apply String.eqb_eq in E; subst k.
      destruct (String.eqb name key); reflexivity.
    + destruct (String.eqb k key) eqn:E'; [ | exact IH ].
      apply String.eqb_eq in E'; subst k.
      rewrite String.eqb_sym, E; reflexivity.
Qed.

Lemma setAttribute_same (name : string) (a : BufferAttribute)
  (attrs : list (string * BufferAttribute)) :
  ShapeMorphEngine.assoc name attrs = Some a -> setAttribute name a attrs = attrs.
Proof.
  induction attrs as [ | [k v] rest IH]; cbn; [ discriminate | ].
  destruct (String.eqb k name); [ intros [= ->]; reflexivity | ].
  intros H; rewrite (IH H); reflexivity.
Qed.

(** Publishing the same arrays over what they were just published to changes
    nothing. *)
Lemma publish_again (a : Arrays) (attrs : list (string * BufferAttribute)) :
  publish a (publish a attrs) = publish a attrs.
Proof.
  set (p := publish a attrs).
  assert (forall name v,
            ShapeMorphEngine.assoc name p = Some v -> setAttribute name v p = p)
    as Hsame by (intros; apply setAttribute_same; assumption).
  unfold publish at 1.
  rewrite !Hsame; try reflexivity;
    unfold p, publish; rewrite !assoc_setAttribute; reflexivity.
Qed.

Lemma generateScalarFieldGeometry_Normal (w : World) (a : Arrays) :
  sweep (this w) (vertexIndices (config (this w))) noArrays = Normal a ->
  generateScalarFieldGeometry w
  = (Normal tt,
     mkWorld (set_attributes (publish a (attributes (this w))) (this w))
       (Logger._log (logger w) Logger.info "SphericalCustomGeometry Generated")).
Proof. intros H; unfold generateScalarFieldGeometry; rewrite H; reflexivity. Qed.

Lemma generateScalarFieldGeometry_Throw (w : World) (e : exn) :
  sweep (this w) (vertexIndices (config (this w))) noArrays = Throw e ->
  generateScalarFieldGeometry w
  = (Throw e,
     mkWorld (this w)
       (Logger._log (logger w) Logger.error
          "SphericalCustomGeometry Generation Failed")).
Proof. intros H; unfold generateScalarFieldGeometry; rewrite H; reflexivity. Qed.

(** C7: when the loop body throws at some vertex, after any number of
    vertices that went through, the regeneration throws that same exception
    to its caller and the engine, with every attribute array published
    before, is as it was when the regeneration started; the failure is
    logged as an error.  An [update] whose regeneration fails so (the
    duration of an interpolation in place not being 0) lets the exception
    through and leaves the buffer it found. *)
Theorem rebuild_failure_keeps_buffer (w : World) (pre post : list Z) (i : Z)
  (a : Arrays) (e : exn) :
  vertexIndices (config (this w)) = pre ++ i :: post ->
  sweep (this w) pre noArrays = Normal a ->
  vertex (this w) i a = Throw e ->
  generateScalarFieldGeometry w
    = (Throw e,
       mkWorld (this w)
         (Logger.mk (Logger.logLevel (logger w))
            (Logger.console (logger w)
             ++ [(Logger.error, "SphericalCustomGeometry Generation Failed"%string)])))
  /\ forall (before : World) (deltaTime : R),
       dynamicEvolution (config (this before)) = true ->
       (forall s, transitionOf before = Some s -> duration s <> 0) ->
       advance before deltaTime = w ->
       fst (update before deltaTime) = Throw e /\
       attributes (this (snd (update before deltaTime)))
         = attributes (this before).
Proof.
  intros Hidx Hpre Hi.
  assert (generateScalarFieldGeometry w
          = (Throw e,
             mkWorld (this w)
               (Logger._log (logger w) Logger.error
                  "SphericalCustomGeometry Generation Failed"))) as Hgen.
  { apply generateScalarFieldGeometry_Throw.
    rewrite Hidx, sweep_app, Hpre; cbn [bind sweep]; rewrite Hi; reflexivity. }
  split.
  - rewrite Hgen; unfold Logger._log.
    destruct (Logger.logLevel (logger w)); reflexivity.
  - intros before deltaTime Hon _ Hadv; unfold update.
    rewrite Hon, Hadv, Hgen; cbn; split; [ reflexivity | ].
    rewrite <- Hadv; unfold advance.
    destruct (shapeInterpolation _); [ destruct (Rge_dec _ _) | ]; reflexivity.
Qed.

(** C10: the arrays a regeneration computes are a function of the
    configuration, the property matrix and the scalar field, so two engines
    that agree on the three compute the same arrays; and a second
    regeneration that follows a first one, with nothing changed in between,
    completes as the first did and leaves the engine, attribute arrays
    included, exactly as the first left it. *)
Theorem rebuild_idempotent :
  (forall g1 g2 : Geometry,
     config g1 = config g2 ->
     propertyMatrix g1 = propertyMatrix g2 ->
     scalarField g1 = scalarField g2 ->
     sweep g1 (vertexIndices (config g1)) noArrays
     = sweep g2 (vertexIndices (config g2)) noArrays) /\
  (forall w : World,
     let first := generateScalarFieldGeometry w in
     let second := generateScalarFieldGeometry (snd first) in
     fst second = fst first /\ this (snd second) = this (snd first)).
Proof.
  split.
  - intros g1 g2 Hc Hm Hf; rewrite <- Hc; apply sweep_inputs; assumption.
  - intros w; lazy zeta.
    destruct (sweep (this w) (vertexIndices (config (this w))) noArrays)
      as [a | e | m] eqn:E.
    + rewrite (generateScalarFieldGeometry_Normal w a E); cbn [fst snd].
      erewrite generateScalarFieldGeometry_Normal.
      * cbn [fst snd this attributes set_attributes config morphEngine
               propertyMatrix scalarField].
        rewrite publish_again; split; reflexivity.
      * rewrite <- E; destruct (this w); apply sweep_inputs; reflexivity.
    + rewrite (generateScalarFieldGeometry_Throw w e E); cbn [fst snd].
      rewrite (generateScalarFieldGeometry_Throw (mkWorld (this w) _) e E).
      split; reflexivity.
    + unfold generateScalarFieldGeometry; rewrite E; cbn [fst snd]; rewrite E.
      split; reflexivity.
Qed.

(** C10, at an instance: an engine with an empty buffer and the same engine
    holding a stale one compute the same arrays. *)
Lemma rebuild_idempotent_witness :
  sweep (unitEngine "Sphere" None 0)
    (vertexIndices (config (unitEngine "Sphere" None 0))) noArrays
  = sweep (set_attributes staleBuffer (unitEngine "Sphere" None 0))
      (vertexIndices (config (set_attributes staleBuffer (unitEngine "Sphere" None 0))))
      noArrays.
Proof.
  apply (proj1 rebuild_idempotent
           (unitEngine "Sphere" None 0)
           (set_attributes staleBuffer (unitEngine "Sphere" None 0)));
    reflexivity.
Defined.

(** ** The transition state machine *)

Lemma log_error (lg : Logger.t) (message : string) :
  Logger._log lg Logger.error message
  = Logger.mk (Logger.logLevel lg) (Logger.console lg ++ [(Logger.error, message)]).
Proof. unfold Logger._log; destruct (Logger.logLevel lg); reflexivity. Qed.

Lemma registered_truthy (id : string) :
  registered id -> ShapeMorphEngine.truthy (ShapeMorphEngine.get id) = true.
Proof. intros [f ->]; reflexivity. Qed.

(** A request whose target passes the validation. *)
Lemma morphToShape_accepted (w : World) (target : string) (d : option R) :
  ShapeMorphEngine.truthy (ShapeMorphEngine.get target) = true ->
  morphToShape w target d
  = mkWorld
      (mkGeometry
         (set_currentShape target
            (set_shapeInterpolation
               (Some (mkInterpolation (shapeOf w) target
                        match d with Some d => d | None => 1 end))
               (config (this w))))
         (morphEngine (this w))
         (propertyMatrix (this w))
         (set_shapeTransition
            (mkTransition (Some (shapeOf w)) (Some target) 0)
            (scalarField (this w)))
         (attributes (this w)))
      (Logger._log (logger w) Logger.info "Shape Morphing Initiated").
Proof. intros H; unfold morphToShape; rewrite H; reflexivity. Qed.

(** A request whose target fails the validation. *)
Lemma morphToShape_rejected (w : World) (target : string) (d : option R) :
  ShapeMorphEngine.truthy (ShapeMorphEngine.get target) = false ->
  morphToShape w target d
  = mkWorld (this w)
      (Logger._log (logger w) Logger.error "Invalid Shape Morphing Target").
Proof. intros H; unfold morphToShape; rewrite H; reflexivity. Qed.

(** [update] leaves the configuration and the scalar field as [advance]
    made them, whatever the regeneration does. *)
Lemma update_enabled (w : World) (deltaTime : R) :
  dynamicEvolution (config (this w)) = true ->
  config (this (snd (update w deltaTime))) = config (this (advance w deltaTime)) /\
  scalarField (this (snd (update w deltaTime)))
    = scalarField (this (advance w deltaTime)) /\
  propertyMatrix (this (snd (update w deltaTime))) = propertyMatrix (this w).
Proof.
  intros H; unfold update; rewrite H.
  pose proof (generateScalarFieldGeometry_frame (advance w deltaTime))
    as (Hc & Hm & Hf & _); cbn zeta in *.
  assert (propertyMatrix (this (advance w deltaTime)) = propertyMatrix (this w)) as Hm'.
  { unfold advance; destruct (shapeInterpolation _); [ destruct (Rge_dec _ _) | ];
      reflexivity. }
  destruct (generateScalarFieldGeometry (advance w deltaTime)) as [[u | e | m] w'];
    cbn [fst snd this] in *; repeat split; congruence.
Qed.

(** With the flag off in the configuration, [update] does nothing. *)
Lemma update_disabled (w : World) (deltaTime : R) :
  dynamicEvolution (config (this w)) = false ->
  update w deltaTime = (Normal tt, w).
Proof. intros H; unfold update; rewrite H; reflexivity. Qed.

Lemma advance_time (w : World) (deltaTime : R) :
  timeOf (advance w deltaTime)
  = timeOf w + deltaTime * morphSpeed (config (this w)).
Proof.
  unfold timeOf, advance; cbn.
  destruct (shapeInterpolation _); [ destruct (Rge_dec _ _) | ]; reflexivity.
Qed.

Lemma advance_idle (w : World) (deltaTime : R) :
  transitionOf w = None ->
  config (this (advance w deltaTime)) = config (this w) /\
  progressOf (advance w deltaTime) = progressOf w.
Proof.
  unfold transitionOf, progressOf, advance; cbn; intros ->; split; reflexivity.
Qed.

Lemma advance_transitioning (w : World) (deltaTime : R) (i : ShapeInterpolation) :
  transitionOf w = Some i ->
  let p := MathJS.min (progressOf w + deltaTime / duration i) 1 in
  progressOf (advance w deltaTime) = p /\
  shapeOf (advance w deltaTime) = shapeOf w /\
  (p >= 1 -> transitionOf (advance w deltaTime) = None) /\
  (p < 1 -> transitionOf (advance w deltaTime) = Some i).
Proof.
  unfold transitionOf, progressOf, shapeOf, advance; cbn; intros Hi.
  rewrite Hi; cbn.
  destruct (Rge_dec _ _) as [Hge | Hlt]; cbn; repeat split;
    intros; try reflexivity; try assumption; exfalso; lra.
Qed.

(** The rule of one tick, on [update] itself. *)
Lemma update_transitioning (w : World) (deltaTime : R) (i : ShapeInterpolation) :
  dynamicEvolution (config (this w)) = true ->
  transitionOf w = Some i ->
  let p := MathJS.min (progressOf w + deltaTime / duration i) 1 in
  let w' := snd (update w deltaTime) in
  progressOf w' = p /\
  shapeOf w' = shapeOf w /\
  dynamicEvolution (config (this w')) = true /\
  (p >= 1 -> transitionOf w' = None) /\
  (p < 1 -> transitionOf w' = Some i).
Proof.
  intros Hon Hi; cbn zeta.
  destruct (update_enabled w deltaTime Hon) as (Hc & Hf & _).
  destruct (advance_transitioning w deltaTime i Hi) as (Hp & Hs & Hdone & Hgo).
  unfold progressOf, shapeOf, transitionOf in *; rewrite Hc, Hf.
  repeat split; try assumption.
  unfold advance, transitionOf in *; cbn; rewrite Hi; cbn.
  destruct (Rge_dec _ _); cbn; assumption.
Qed.

(** *** Construction *)

Lemma constructor_state (random : nat -> R) (lg : Logger.t)
  (radius : option R) (polygonCount : option Z) (o : option Options) :
  let c :=
    initialConfig
      match radius with Some r => r | None => 100 end
      match polygonCount with Some n => n | None => 500%Z end
      match o with Some o => o | None => noOptions end in
  let w := snd (constructor random lg radius polygonCount o) in
  config (this w) = c /\
  scalarField (this w) = mkScalarField 0 (mkTransition None None 0) /\
  propertyMatrix (this w) = initializePropertyMatrix random c.
Proof.
  cbn zeta; unfold constructor.
  match goal with
  | |- context [generateScalarFieldGeometry ?w0] =>
      pose proof (generateScalarFieldGeometry_frame w0) as (Hc & Hm & Hf & _)
  end.
  cbn zeta in *; rewrite Hc, Hm, Hf; repeat split; reflexivity.
Qed.

(** Construction returns normally when the grid, after the defaults, has at
    least one cell each way and the initial shape is in the table. *)
Lemma constructor_normal (random : nat -> R) (lg : Logger.t)
  (radius : option R) (polygonCount : option Z) (o : Options) :
  (1 <= orZ (opt_gridWidth o) 200)%Z ->
  (1 <= orZ (opt_gridHeight o) 200)%Z ->
  registered (orString (opt_currentShape o) "Sphere") ->
  fst (constructor random lg radius polygonCount (Some o)) = Normal tt.
Proof.
  intros Hw Hh Hs; unfold constructor.
  apply generateScalarFieldGeometry_normal; cbn; try assumption.
  - apply initializePropertyMatrix_fits.
  - split; [ assumption | discriminate ].
Qed.

Lemma defaultEngine_state (random : nat -> R) :
  config (this (defaultEngine random))
    = mkConfig 100 500 200 200 0.5 true "Sphere" None /\
  scalarField (this (defaultEngine random))
    = mkScalarField 0 (mkTransition None None 0) /\
  matrixFits (this (defaultEngine random)).
Proof.
  unfold defaultEngine.
  destruct (constructor_state random Logger.loggerInstance None None None)
    as (Hc & Hf & Hm); cbn zeta in *.
  repeat split; try assumption.
  - unfold matrixFits; rewrite Hc, Hm.
    apply (initializePropertyMatrix_fits random (initialConfig 100 500 noOptions)).
  - unfold matrixFits; rewrite Hc, Hm.
    apply (initializePropertyMatrix_fits random (initialConfig 100 500 noOptions)).
Qed.

(** *** Morph requests *)

(** C1, refuted as stated: a request for "Cube" with duration 0 on the
    default engine is not rejected; it changes the current shape and starts
    a transition of duration 0. *)
Lemma zero_duration_morph_changes_state :
  let w := defaultEngine (fun _ => 0) in
  let w' := morphToShape w "Cube" (Some 0) in
  shapeOf w = "Sphere"%string /\ transitionOf w = None /\
  shapeOf w' = "Cube"%string /\
  transitionOf w' = Some (mkInterpolation "Sphere" "Cube" 0) /\
  this w' <> this w.
Proof.
  cbn zeta.
  destruct (defaultEngine_state (fun _ => 0)) as (Hc & _ & _).
  rewrite morphToShape_accepted by reflexivity.
  unfold shapeOf, transitionOf; rewrite Hc; cbn.
  repeat split; try reflexivity.
  intros H; apply (f_equal (fun g => currentShape (config g))) in H.
  rewrite Hc in H; discriminate.
Qed.

(** C1, amended: a request with a duration of 0 or less whose target passes
    the validation is accepted as any other request is.  It records a
    transition from the current shape to the target with the duration as
    given, resets the progress to 0 and makes the target the current shape;
    the clock, the property matrix and the attribute buffer are untouched,
    and the request is logged at level info, not as an error. *)
Theorem morph_with_nonpositive_duration (w : World) (target : string) (d : R) :
  d <= 0 ->
  ShapeMorphEngine.truthy (ShapeMorphEngine.get target) = true ->
  let w' := morphToShape w target (Some d) in
  transitionOf w' = Some (mkInterpolation (shapeOf w) target d) /\
  shapeTransition (scalarField (this w'))
    = mkTransition (Some (shapeOf w)) (Some target) 0 /\
  shapeOf w' = target /\
  timeOf w' = timeOf w /\
  propertyMatrix (this w') = propertyMatrix (this w) /\
  attributes (this w') = attributes (this w) /\
  logger w' = Logger._log (logger w) Logger.info "Shape Morphing Initiated".
Proof.
  intros _ Hok; cbn zeta; rewrite (morphToShape_accepted w target (Some d) Hok).
  repeat split; reflexivity.
Qed.

(** C1, at an instance: "Cube" with duration 0 on the one-cell engine. *)
Lemma morph_with_nonpositive_duration_witness :
  let w := mkWorld (unitEngine "Sphere" None 0) Logger.loggerInstance in
  let w' := morphToShape w "Cube" (Some 0) in
  transitionOf w' = Some (mkInterpolation (shapeOf w) "Cube" 0) /\
  shapeTransition (scalarField (this w'))
    = mkTransition (Some (shapeOf w)) (Some "Cube"%string) 0 /\
  shapeOf w' = "Cube"%string /\
  timeOf w' = timeOf w /\
  propertyMatrix (this w') = propertyMatrix (this w) /\
  attributes (this w') = attributes (this w) /\
  logger w' = Logger._log (logger w) Logger.info "Shape Morphing Initiated".
Proof.
  apply (morph_with_nonpositive_duration
           (mkWorld (unitEngine "Sphere" None 0) Logger.loggerInstance) "Cube" 0).
  - lra.
  - reflexivity.
Defined.

(** C2, refuted as stated: "Nonexistent" is not in the table, and
    [getShapeParameters] answers it with the Sphere profile. *)
Lemma unknown_shape_falls_back_to_Sphere :
  ShapeMorphEngine.get "Nonexistent" = ShapeMorphEngine.Undefined /\
  ShapeMorphEngine.sdfFunction (ShapeMorphEngine.getShapeParameters "Nonexistent")
    = ShapeMorphEngine.Own ShapeMorphEngine.Sphere.
Proof. split; reflexivity. Qed.

(** C2, amended: for an identifier whose lookup in the table is undefined, a
    morph request logs the error "Invalid Shape Morphing Target", returns
    without throwing and leaves the whole engine (current shape, transition
    state and the rest) as it was; the evaluator's own lookup of such an
    identifier fails with a TypeError when the result is called; but
    [getShapeParameters] falls back to the Sphere profile. *)
Theorem morph_to_unknown_shape (w : World) (target : string) (d : option R) :
  ShapeMorphEngine.get target = ShapeMorphEngine.Undefined ->
  morphToShape w target d
    = mkWorld (this w)
        (Logger.mk (Logger.logLevel (logger w))
           (Logger.console (logger w)
            ++ [(Logger.error, "Invalid Shape Morphing Target"%string)])) /\
  (forall theta phi r,
     exists e, ShapeMorphEngine.call (ShapeMorphEngine.get target) theta phi r = Throw e) /\
  ShapeMorphEngine.sdfFunction (ShapeMorphEngine.getShapeParameters target)
    = ShapeMorphEngine.Own ShapeMorphEngine.Sphere.
Proof.
  intros H; split; [ | split ].
  - rewrite morphToShape_rejected by (rewrite H; reflexivity).
    rewrite log_error; reflexivity.
  - intros; rewrite H; eexists; reflexivity.
  - unfold ShapeMorphEngine.getShapeParameters; rewrite H; reflexivity.
Qed.

(** C2, at an instance: "Nonexistent", over 1 second, on the one-cell engine. *)
Lemma morph_to_unknown_shape_witness :
  morphToShape (mkWorld (unitEngine "Sphere" None 0) Logger.loggerInstance)
    "Nonexistent" (Some 1)
  = mkWorld (unitEngine "Sphere" None 0)
      (Logger.mk Logger.info
         [(Logger.error, "Invalid Shape Morphing Target"%string)]).
Proof.
  exact (proj1 (morph_to_unknown_shape
                  (mkWorld (unitEngine "Sphere" None 0) Logger.loggerInstance)
                  "Nonexistent" (Some 1) eq_refl)).
Defined.

(** *** Ticks *)

Lemma wellFormed_inputs (g1 g2 : Geometry) :
  config g1 = config g2 ->
  propertyMatrix g1 = propertyMatrix g2 ->
  wellFormed g1 -> wellFormed g2.
Proof.
  unfold wellFormed, matrixFits, shapesRegistered; intros <- <-; exact (fun H => H).
Qed.

Lemma morphToShape_wellFormed (w : World) (target : string) (d : option R) :
  wellFormed (this w) -> registered target ->
  wellFormed (this (morphToShape w target d)).
Proof.
  intros (Hm & (Hcur & _) & Hw & Hh) Ht.
  rewrite morphToShape_accepted by (apply registered_truthy; assumption).
  destruct Hm as [Hlen Hcols].
  unfold wellFormed, matrixFits, shapesRegistered; cbn.
  split; [ split; assumption | ].
  split; [ | split; assumption ].
  split; [ assumption | ].
  intros i [= <-]; split; assumption.
Qed.

Lemma advance_wellFormed (w : World) (deltaTime : R) :
  wellFormed (this w) -> wellFormed (this (advance w deltaTime)).
Proof.
  intros ([Hlen Hcols] & (Hcur & Hi) & Hw & Hh).
  unfold wellFormed, matrixFits, shapesRegistered, advance; cbn.
  destruct (shapeInterpolation (config (this w))) as [i | ] eqn:E; cbn;
    [ destruct (Rge_dec _ _); cbn | ];
    (split; [ split; assumption | ]);
    (split; [ | split; assumption ]);
    (split; [ assumption | ]);
    rewrite ?E; try discriminate;
    intros j [= <-]; apply (Hi i eq_refl).
Qed.

Lemma update_wellFormed (w : World) (deltaTime : R) :
  wellFormed (this w) -> wellFormed (this (snd (update w deltaTime))).
Proof.
  intros H; destruct (dynamicEvolution (config (this w))) eqn:E.
  - destruct (update_enabled w deltaTime E) as (Hc & _ & Hm).
    apply (wellFormed_inputs (this (advance w deltaTime))); try congruence.
    + rewrite Hm; unfold advance.
      destruct (shapeInterpolation _); [ destruct (Rge_dec _ _) | ]; reflexivity.
    + apply advance_wellFormed; assumption.
  - rewrite update_disabled by assumption; assumption.
Qed.

(** On a well-formed engine with evolution enabled, [update] returns. *)
Lemma update_normal (w : World) (deltaTime : R) :
  wellFormed (this w) ->
  fst (update w deltaTime) = Normal tt.
Proof.
  intros H; unfold update.
  destruct (dynamicEvolution (config (this w))); [ | reflexivity ].
  destruct (advance_wellFormed w deltaTime H) as (Hm & Hs & Hw & Hh).
  pose proof (generateScalarFieldGeometry_normal _ Hm Hs Hw Hh) as Hn.
  destruct (generateScalarFieldGeometry (advance w deltaTime)) as [c w'];
    cbn in Hn; subst c; reflexivity.
Qed.

Lemma defaultEngine_wellFormed (random : nat -> R) :
  wellFormed (this (defaultEngine random)).
Proof.
  destruct (defaultEngine_state random) as (Hc & _ & Hm).
  unfold wellFormed, shapesRegistered.
  split; [ assumption | ].
  rewrite Hc; cbn.
  repeat split; try lia; try discriminate.
  eexists; reflexivity.
Qed.

(** C3: on an idle engine whose current shape is "Sphere", a request for
    "Cube" over 2 followed by an update of 1 returns with progress 0.5 and
    the transition from "Sphere" to "Cube" still in place; a second update
    of 1 returns with progress 1, the transition cleared and "Cube" the
    current shape.  In general an update on an engine in transition, whose
    duration is not zero, sets the progress to the minimum of 1 and
    progress + deltaTime / duration. *)
Theorem sphere_to_cube_in_two_ticks (w : World) :
  transitionOf w = None ->
  shapeOf w = "Sphere"%string ->
  dynamicEvolution (config (this w)) = true ->
  wellFormed (this w) ->
  let requested := morphToShape w "Cube" (Some 2) in
  let first := update requested 1 in
  let second := update (snd first) 1 in
  (fst first = Normal tt /\
   progressOf (snd first) = 0.5 /\
   transitionOf (snd first) = Some (mkInterpolation "Sphere" "Cube" 2)) /\
  (fst second = Normal tt /\
   progressOf (snd second) = 1 /\
   transitionOf (snd second) = None /\
   shapeOf (snd second) = "Cube"%string) /\
  (forall (v : World) (deltaTime : R) (i : ShapeInterpolation),
     dynamicEvolution (config (this v)) = true ->
     transitionOf v = Some i ->
     duration i <> 0 ->
     progressOf (snd (update v deltaTime))
     = Rmin 1 (progressOf v + deltaTime / duration i)).
Proof.
  intros _ Hshape Hon Hwf; cbn zeta.
  set (requested := morphToShape w "Cube" (Some 2)).
  assert (wellFormed (this requested)) as Hwf1
    by (apply morphToShape_wellFormed; [ assumption | eexists; reflexivity ]).
  assert (transitionOf requested = Some (mkInterpolation "Sphere" "Cube" 2)
          /\ progressOf requested = 0
          /\ shapeOf requested = "Cube"%string
          /\ dynamicEvolution (config (this requested)) = true)
    as (Ht1 & Hp1 & Hs1 & Hon1).
  { unfold requested; rewrite morphToShape_accepted by reflexivity.
    unfold transitionOf, progressOf, shapeOf in *; cbn; rewrite Hshape.
    repeat split; try reflexivity; assumption. }
  destruct (update_transitioning requested 1 _ Hon1 Ht1)
    as (Hp2 & Hs2 & Hon2 & _ & Ht2); cbn zeta in *.
  assert (progressOf (snd (update requested 1)) = 0.5) as Hhalf.
  { rewrite Hp2, Hp1; unfold MathJS.min; cbn [duration].
    rewrite Rmin_left; lra. }
  assert (transitionOf (snd (update requested 1))
          = Some (mkInterpolation "Sphere" "Cube" 2)) as Ht2'.
  { apply Ht2; unfold MathJS.min in *; rewrite <- Hp2, Hhalf; lra. }
  destruct (update_transitioning (snd (update requested 1)) 1 _ Hon2 Ht2')
    as (Hp3 & Hs3 & _ & Ht3 & _); cbn zeta in *.
  assert (progressOf (snd (update (snd (update requested 1)) 1)) = 1) as Hone.
  { rewrite Hp3, Hhalf; unfold MathJS.min; cbn [duration].
    rewrite Rmin_right; lra. }
  split; [ | split ].
  - repeat split; try assumption; apply update_normal; assumption.
  - repeat split; try assumption.
    + apply update_normal, update_wellFormed; assumption.
    + apply Ht3; unfold MathJS.min in *; rewrite <- Hp3, Hone; lra.
    + congruence.
  - intros v deltaTime i Hv Hi _.
    destruct (update_transitioning v deltaTime i Hv Hi) as (Hp & _).
    rewrite Hp; unfold MathJS.min; apply Rmin_comm.
Qed.

(** C3, at an instance: the engine built with every argument defaulted. *)
Lemma sphere_to_cube_in_two_ticks_witness :
  let requested := morphToShape (defaultEngine (fun _ => 0.5)) "Cube" (Some 2) in
  let first := update requested 1 in
  let second := update (snd first) 1 in
  (fst first = Normal tt /\
   progressOf (snd first) = 0.5 /\
   transitionOf (snd first) = Some (mkInterpolation "Sphere" "Cube" 2)) /\
  (fst second = Normal tt /\
   progressOf (snd second) = 1 /\
   transitionOf (snd second) = None /\
   shapeOf (snd second) = "Cube"%string).
Proof.
  pose proof (sphere_to_cube_in_two_ticks (defaultEngine (fun _ => 0.5))) as H.
  destruct (defaultEngine_state (fun _ => 0.5)) as (Hc & _ & _).
  unfold transitionOf, shapeOf in H; rewrite Hc in H.
  destruct (H eq_refl eq_refl eq_refl (defaultEngine_wellFormed _))
    as (H1 & H2 & _).
  split; assumption.
Defined.

(** *** The evolution flag *)

(** C6, at the failing input: an engine constructed with
    [{ dynamicEvolution: false }] has the flag set to [true] in its
    configuration, and [update(1)] on it returns normally having moved the
    clock from 0 to 0.5; an update on an engine whose flag is [false] in the
    configuration would have left it as it was. *)
Theorem evolution_flag_false_is_overridden (random : nat -> R) (lg : Logger.t) :
  let options := mkOptions None None None (Some false) None in
  let result := constructor random lg (Some 100) (Some 500%Z) (Some options) in
  let w := snd result in
  fst result = Normal tt /\
  dynamicEvolution (config (this w)) = true /\
  timeOf w = 0 /\
  fst (update w 1) = Normal tt /\
  timeOf (snd (update w 1)) = 0.5 /\
  snd (update w 1) <> w.
Proof.
  cbn zeta.
  set (options := mkOptions None None None (Some false) None).
  destruct (constructor_state random lg (Some 100) (Some 500%Z) (Some options))
    as (Hc & Hf & Hm); cbn zeta in *.
  set (w := snd (constructor random lg (Some 100) (Some 500%Z) (Some options))) in *.
  assert (dynamicEvolution (config (this w)) = true) as Hon by (rewrite Hc; reflexivity).
  assert (wellFormed (this w)) as Hwf.
  { unfold wellFormed, matrixFits, shapesRegistered; rewrite Hc, Hm.
    split; [ apply initializePropertyMatrix_fits | ].
    cbn; repeat split; try lia; try discriminate.
    eexists; reflexivity. }
  assert (timeOf (snd (update w 1)) = 0.5) as Ht.
  { destruct (update_enabled w 1 Hon) as (_ & Hf' & _).
    unfold timeOf; rewrite Hf'.
    fold (timeOf (advance w 1)); rewrite advance_time.
    unfold timeOf; rewrite Hf, Hc; cbn; lra. }
  repeat split.
  - apply constructor_normal; cbn; try lia; eexists; reflexivity.
  - assumption.
  - unfold timeOf; rewrite Hf; reflexivity.
  - apply update_normal; assumption.
  - assumption.
  - intros H; rewrite H in Ht; unfold timeOf in Ht; rewrite Hf in Ht; cbn in Ht; lra.
Qed.

(** *** The invariant of the state machine *)

(** C8, refuted as stated: on the default engine, a request for "Cube" with
    duration -1 followed by an update of 1 leaves the progress at -1. *)
Lemma negative_duration_drives_progress_below_zero :
  progressOf
    (run (defaultEngine (fun _ => 0))
       [requestMorph "Cube" (Some (-1)); tick 1])
  < 0.
Proof.
  destruct (defaultEngine_state (fun _ => 0)) as (Hc & _ & _).
  cbn [run fold_left step].
  set (requested := morphToShape _ "Cube" (Some (-1))).
  assert (transitionOf requested = Some (mkInterpolation "Sphere" "Cube" (-1))
          /\ progressOf requested = 0
          /\ dynamicEvolution (config (this requested)) = true)
    as (Ht & Hp & Hon).
  { unfold requested; rewrite morphToShape_accepted by reflexivity.
    unfold transitionOf, progressOf, shapeOf; cbn; rewrite Hc.
    repeat split; reflexivity. }
  destruct (update_transitioning requested 1 _ Hon Ht) as (Hp' & _).
  rewrite Hp', Hp; unfold MathJS.min; cbn [duration].
  rewrite Rmin_left; lra.
Qed.

Lemma morphToShape_sound (w : World) (target : string) (d : option R) :
  guarded (requestMorph target d) ->
  transitionSound w -> transitionSound (morphToShape w target d).
Proof.
  intros Hd Hw.
  destruct (ShapeMorphEngine.truthy (ShapeMorphEngine.get target)) eqn:E.
  - rewrite morphToShape_accepted by assumption.
    unfold transitionSound, progressOf, transitionOf; cbn.
    split; [ lra | ].
    intros i [= <-]; cbn; split; [ lra | ].
    destruct d; cbn in Hd; lra.
  - rewrite morphToShape_rejected by assumption; exact Hw.
Qed.

Lemma update_sound (w : World) (deltaTime : R) :
  0 <= deltaTime ->
  transitionSound w -> transitionSound (snd (update w deltaTime)).
Proof.
  intros Hd [Hrange Hlive].
  destruct (dynamicEvolution (config (this w))) eqn:Hon;
    [ | rewrite update_disabled by assumption; split; assumption ].
  destruct (transitionOf w) as [i | ] eqn:Hi.
  - destruct (Hlive i eq_refl) as [Hlt Hpos].
    destruct (update_transitioning w deltaTime i Hon Hi)
      as (Hp & _ & _ & Hdone & Hgo); cbn zeta in *.
    assert (0 <= deltaTime / duration i) as Hinc
      by (apply Rmult_le_pos; [ | left; apply Rinv_0_lt_compat ]; assumption).
    assert (0 <= MathJS.min (progressOf w + deltaTime / duration i) 1 <= 1) as Hnew.
    { unfold MathJS.min; split; [ apply Rmin_glb; lra | apply Rmin_r ]. }
    unfold transitionSound; rewrite Hp; split; [ assumption | ].
    intros j Hj.
    destruct (Rlt_dec (MathJS.min (progressOf w + deltaTime / duration i) 1) 1)
      as [Hless | Hfull].
    + rewrite (Hgo Hless) in Hj; injection Hj as <-; split; assumption.
    + rewrite Hdone in Hj by lra; discriminate.
  - destruct (update_enabled w deltaTime Hon) as (Hc & Hf & _).
    destruct (advance_idle w deltaTime Hi) as (Hc' & Hp').
    unfold transitionSound, progressOf, transitionOf in *.
    rewrite Hc, Hf, Hc', Hp', Hi; split; [ assumption | discriminate ].
Qed.

Lemma run_sound (ops : list operation) (w : World) :
  Forall guarded ops -> transitionSound w -> transitionSound (run w ops).
Proof.
  intros H; revert w; induction H as [ | o ops Ho _ IH]; intros w Hw;
    [ exact Hw | ].
  cbn [run fold_left]; apply IH.
  destruct o as [target d | deltaTime]; cbn [step].
  - apply morphToShape_sound; assumption.
  - apply update_sound; assumption.
Qed.

(** C8, amended: provided every morph request has a positive duration and
    every update a non-negative time delta, after construction and any
    sequence of morph requests and updates the progress is in [0,1], and an
    interpolation that is still in place has a progress below 1 and a
    positive duration; so one whose progress has reached 1 has been cleared. *)
Theorem progress_stays_in_unit_interval (random : nat -> R) (lg : Logger.t)
  (radius : option R) (polygonCount : option Z) (options : option Options)
  (ops : list operation) :
  Forall guarded ops ->
  let w := run (snd (constructor random lg radius polygonCount options)) ops in
  0 <= progressOf w <= 1 /\
  (forall i, transitionOf w = Some i -> progressOf w < 1 /\ 0 < duration i) /\
  (progressOf w = 1 -> transitionOf w = None).
Proof.
  intros Hops; cbn zeta.
  assert (transitionSound
            (run (snd (constructor random lg radius polygonCount options)) ops))
    as [Hrange Hlive].
  { apply run_sound; [ assumption | ].
    destruct (constructor_state random lg radius polygonCount options)
      as (Hc & Hf & _); cbn zeta in *.
    unfold transitionSound, progressOf, transitionOf; rewrite Hc, Hf; cbn.
    split; [ lra | discriminate ]. }
  split; [ exact Hrange | split; [ exact Hlive | ] ].
  intros Hone.
  destruct (transitionOf _) as [i | ] eqn:E; [ | reflexivity ].
  destruct (Hlive i eq_refl); lra.
Qed.

(** C8, at an instance: the scenario of the specification, a request for
    "Cube" over 2 and two updates of 1, on the default engine. *)
Lemma progress_stays_in_unit_interval_witness :
  let w :=
    run (snd (constructor (fun _ => 0) Logger.loggerInstance None None None))
      [requestMorph "Cube" (Some 2); tick 1; tick 1] in
  0 <= progressOf w <= 1 /\
  (forall i, transitionOf w = Some i -> progressOf w < 1 /\ 0 < duration i) /\
  (progressOf w = 1 -> transitionOf w = None).
Proof.
  apply (progress_stays_in_unit_interval (fun _ => 0) Logger.loggerInstance
           None None None [requestMorph "Cube" (Some 2); tick 1; tick 1]).
  repeat constructor; cbn; lra.
Defined.

(** ** Further properties of the shape profiles *)

Lemma Rmax_abs_unit (u v : R) :
  Rabs u <= 1 -> Rabs v <= 1 -> 0 <= Rmax (Rabs u) (Rabs v) <= 1.
Proof.
  intros Hu Hv; split.
  - apply Rle_trans with (Rabs u); [ apply Rabs_pos | apply Rmax_l ].
  - apply Rmax_lub; assumption.
Qed.

Lemma Rabs_sin_le_1 (x : R) : Rabs (sin x) <= 1.
Proof. apply Rabs_le; pose proof (SIN_bound x); lra. Qed.

Lemma Rabs_cos_le_1 (x : R) : Rabs (cos x) <= 1.
Proof. apply Rabs_le; pose proof (COS_bound x); lra. Qed.

Lemma polar_fraction (phi : R) : 0 <= phi <= PI -> 0 <= phi / PI <= 1.
Proof.
  intros [Hlo Hhi]; pose proof PI_RGT_0 as Hpi.
  split.
  - apply Rmult_le_pos; [ assumption | left; apply Rinv_0_lt_compat; lra ].
  - apply Rmult_le_reg_r with PI; [ lra | ].
    unfold Rdiv; rewrite Rmult_assoc, Rinv_l by lra; lra.
Qed.

Section ProfileRanges.

Variables theta phi r : R.
Hypothesis radius_nonnegative : 0 <= r.

Lemma Cube_range : 0 <= ShapeMorphEngine.Cube theta phi r <= r.
Proof.
  unfold ShapeMorphEngine.Cube, MathJS.max, MathJS.abs.
  pose proof (Rmax_abs_unit (sin theta) (cos phi)
                (Rabs_sin_le_1 theta) (Rabs_cos_le_1 phi)) as Hm.
  nra.
Qed.

Hypothesis polar : 0 <= phi <= PI.

Lemma Cone_range : 0 <= ShapeMorphEngine.Cone theta phi r <= r.
Proof.
  pose proof (polar_fraction phi polar); unfold ShapeMorphEngine.Cone; nra.
Qed.

Lemma Cylinder_range : 0 <= ShapeMorphEngine.Cylinder theta phi r <= r.
Proof.
  unfold ShapeMorphEngine.Cylinder.
  assert (0 <= sin phi) by (apply sin_ge_0; lra).
  pose proof (SIN_bound phi); nra.
Qed.

Lemma Torus_range : 0.7 * r <= ShapeMorphEngine.Torus theta phi r <= 1.3 * r.
Proof. unfold ShapeMorphEngine.Torus; pose proof (COS_bound phi); nra. Qed.

Lemma Parabola_range : 0 <= ShapeMorphEngine.Parabola theta phi r <= r.
Proof.
  pose proof (polar_fraction phi polar) as Hf.
  unfold ShapeMorphEngine.Parabola, MathJS.pow.
  replace ((2 * phi / PI - 1) ^ 2)
    with ((2 * (phi / PI) - 1) * (2 * (phi / PI) - 1)) by (unfold Rdiv; ring).
  set (u := phi / PI) in *.
  assert (0 <= u * (1 - u)) by (apply Rmult_le_pos; lra).
  assert (0 <= (2 * u - 1) * (2 * u - 1)) by (apply Rle_0_sqr).
  assert ((2 * u - 1) * (2 * u - 1) = 1 - 4 * (u * (1 - u))) as Hsq by ring.
  split.
  - apply Rmult_le_pos; lra.
  - rewrite <- (Rmult_1_r r) at 2; apply Rmult_le_compat_l; lra.
Qed.

End ProfileRanges.

(** X1: for a base radius [r >= 0] and a polar angle in [0, PI], the Sphere,
    Cube, Cone, Cylinder and Parabola profiles return a radius in [0, r] and
    the Torus profile one in [0.7 r, 1.3 r]. *)
Theorem profiles_within_bounds (theta phi r : R) :
  0 <= r ->
  0 <= phi <= PI ->
  ShapeMorphEngine.Sphere theta phi r = r /\
  0 <= ShapeMorphEngine.Cube theta phi r <= r /\
  0 <= ShapeMorphEngine.Cone theta phi r <= r /\
  0 <= ShapeMorphEngine.Cylinder theta phi r <= r /\
  0.7 * r <= ShapeMorphEngine.Torus theta phi r <= 1.3 * r /\
  0 <= ShapeMorphEngine.Parabola theta phi r <= r.
Proof.
  intros Hr Hphi.
  split; [ reflexivity | ].
  split; [ apply Cube_range; assumption | ].
  split; [ apply Cone_range; assumption | ].
  split; [ apply Cylinder_range; assumption | ].
  split; [ apply Torus_range; assumption | ].
  apply Parabola_range; assumption.
Qed.

(** X1, at an instance: radius 100 on the equator. *)
Lemma profiles_within_bounds_witness :
  ShapeMorphEngine.Sphere 0 (PI / 2) 100 = 100 /\
  0 <= ShapeMorphEngine.Cube 0 (PI / 2) 100 <= 100 /\
  0 <= ShapeMorphEngine.Cone 0 (PI / 2) 100 <= 100 /\
  0 <= ShapeMorphEngine.Cylinder 0 (PI / 2) 100 <= 100 /\
  0.7 * 100 <= ShapeMorphEngine.Torus 0 (PI / 2) 100 <= 1.3 * 100 /\
  0 <= ShapeMorphEngine.Parabola 0 (PI / 2) 100 <= 100.
Proof.
  pose proof PI_RGT_0.
  apply (profiles_within_bounds 0 (PI / 2) 100); lra.
Defined.

(** ** Further properties of the field evaluator *)

Lemma modulation_below_15 (theta phi : R) (cell : PropertyCell) (t : R) :
  constantFields cell -> unitDraws cell ->
  -15 < modulation theta phi cell t < 15.
Proof.
  intros (Hs & Hc & _) ([Ha0 Ha1] & _); unfold modulation; rewrite Hc.
  pose proof (SIN_bound (theta * rugosity cell + t)) as [Hs0 Hs1].
  pose proof (COS_bound (phi * sphericity cell + t)) as [Hc0 Hc1].
  assert (-1 < sin (theta * rugosity cell + t) * anisotropy cell < 1) by nra.
  lra.
Qed.

(** X2: on an engine with no interpolation in progress, for a cell as
    [generatePropertyCell] makes it with draws in [0, 1), the evaluator
    returns a radius at most 15 away from the radius of the current shape's
    profile, at every angle and time.  This is on the reals; the code's
    doubles round, and can reach the bound. *)
Theorem dynamic_radius_within_15 (g : Geometry) (theta phi : R)
  (cell : PropertyCell) (t current : R) :
  constantFields cell ->
  unitDraws cell ->
  shapeInterpolation (config g) = None ->
  profile (currentShape (config g)) theta phi (radius (config g))
    = Some current ->
  exists v,
    combinedSDF g theta phi (Some cell) t = Normal v /\
    current - 15 <= v <= current + 15.
Proof.
  intros Hconst Hdraws Hidle Hcur.
  exists (current + modulation theta phi cell t); split.
  - unfold combinedSDF; rewrite (call_profile _ _ _ _ _ Hcur), Hidle.
    reflexivity.
  - pose proof (modulation_below_15 theta phi cell t Hconst Hdraws); lra.
Qed.

Lemma flatCell_constantFields : constantFields flatCell.
Proof. unfold constantFields, flatCell; cbn; repeat split; lra. Qed.

Lemma flatCell_unitDraws : unitDraws flatCell.
Proof. unfold unitDraws, flatCell; cbn; lra. Qed.

(** X2, at an instance: the one-cell Sphere engine of radius 1. *)
Lemma dynamic_radius_within_15_witness :
  exists v,
    combinedSDF (unitEngine "Sphere" None 0) 0 0 (Some flatCell) 0 = Normal v /\
    1 - 15 <= v <= 1 + 15.
Proof.
  apply (dynamic_radius_within_15 (unitEngine "Sphere" None 0) 0 0 flatCell 0 1).
  - exact flatCell_constantFields.
  - exact flatCell_unitDraws.
  - reflexivity.
  - reflexivity.
Defined.

(** X3: while an interpolation is in progress with a progress in [0, 1],
    the radius the evaluator modulates lies between the radius of the
    [from] profile and that of the [to] profile at the same angle.  This is
    on the reals; in the code's doubles the blend can fall outside the two
    radii by a rounding error. *)
Theorem blend_between_profiles (g : Geometry) (theta phi : R)
  (cell : PropertyCell) (t current a b : R) (i : ShapeInterpolation) :
  shapeInterpolation (config g) = Some i ->
  0 <= progress (shapeTransition (scalarField g)) <= 1 ->
  profile (currentShape (config g)) theta phi (radius (config g))
    = Some current ->
  profile (from i) theta phi (radius (config g)) = Some a ->
  profile (to i) theta phi (radius (config g)) = Some b ->
  exists base,
    Rmin a b <= base <= Rmax a b /\
    combinedSDF g theta phi (Some cell) t
      = Normal (base + modulation theta phi cell t).
Proof.
  intros Hi [Hp0 Hp1] Hcur Ha Hb.
  set (p := progress (shapeTransition (scalarField g))) in *.
  exists (MathJS.lerp a b p); split.
  - unfold MathJS.lerp.
    destruct (Rle_dec a b) as [Hab | Hba].
    + rewrite Rmin_left, Rmax_right by assumption; split; nra.
    + rewrite Rmin_right, Rmax_left by lra; split; nra.
  - unfold combinedSDF; rewrite (call_profile _ _ _ _ _ Hcur), Hi.
    cbn [bind]; rewrite (call_profile _ _ _ _ _ Ha), (call_profile _ _ _ _ _ Hb).
    reflexivity.
Qed.

(** X3, at an instance: a quarter of the way from Sphere to Torus. *)
Lemma blend_between_profiles_witness :
  exists base,
    Rmin 1 (1 + 0.3 * 1 * cos 0) <= base <= Rmax 1 (1 + 0.3 * 1 * cos 0) /\
    combinedSDF
      (unitEngine "Torus" (Some (mkInterpolation "Sphere" "Torus" 4)) 0.25)
      0 0 (Some flatCell) 0
    = Normal (base + modulation 0 0 flatCell 0).
Proof.
  apply (blend_between_profiles
           (unitEngine "Torus" (Some (mkInterpolation "Sphere" "Torus" 4)) 0.25)
           0 0 flatCell 0 (1 + 0.3 * 1 * cos 0) 1 (1 + 0.3 * 1 * cos 0)
           (mkInterpolation "Sphere" "Torus" 4)).
  - reflexivity.
  - cbn; lra.
  - reflexivity.
  - reflexivity.
  - reflexivity.
Defined.

(** ** Further properties of the regeneration *)


Lemma unitEngine_wellFormed (shape : string) :
  registered shape -> wellFormed (unitEngine shape None 0).
Proof.
  intros H; unfold wellFormed, matrixFits, shapesRegistered; cbn.
  repeat split; try lia; try assumption; try discriminate.
  repeat constructor.
Qed.


Lemma vertex_sizes (g : Geometry) (i : Z) (a a' : Arrays) :
  vertex g i a = Normal a' ->
  sizes a' = map (fun p => (fst p + snd p)%nat) (combine (sizes a) rowSizes).
Proof.
  unfold vertex.
  destruct (index (propertyMatrix g) _) as [column | ]; [ | discriminate ].
  destruct (index column _) as [cell | ];
    (destruct (combinedSDF g _ _ _ _) as [r | e | m]; cbn [bind];
     try discriminate).
  intros [= <-]; unfold sizes; cbn; rewrite !length_app; reflexivity.
Qed.

Lemma sweep_sizes (g : Geometry) (indices : list Z) (a a' : Arrays) :
  sweep g indices a = Normal a' ->
  sizes a'
  = map (fun p => (fst p + List.length indices * snd p)%nat)
      (combine (sizes a) rowSizes).
Proof.
  revert a; induction indices as [ | i rest IH]; intros a; cbn [sweep].
  - intros [= <-]; unfold sizes; cbn; repeat (f_equal; try lia).
  - destruct (vertex g i a) as [a1 | e | m] eqn:E; cbn [bind]; try discriminate.
    intros H; rewrite (IH _ H), (vertex_sizes _ _ _ _ E).
    unfold sizes; cbn; repeat (f_equal; try lia).
Qed.

Lemma published_after_publish (w : World) (a : Arrays)
  (attrs : list (string * BufferAttribute)) (lg : Logger.t) (g : Geometry) :
  let w' := mkWorld (set_attributes (publish a attrs) g) lg in
  published w' "position" = positions a /\
  published w' "mass" = masses a /\
  published w' "charge" = charges a /\
  published w' "symmetryIndex" = symmetryIndices a /\
  published w' "lightProperties" = lightProperties a /\
  published w' "valency" = valencies a /\
  published w' "volume" = volumes a /\
  published w' "density" = densities a /\
  published w' "orientation" = orientations a.
Proof.
  cbn zeta; unfold published, publish; cbn [this attributes set_attributes].
  rewrite !assoc_setAttribute; cbn; repeat split; reflexivity.
Qed.

(** X5: a regeneration that returns normally leaves, under each of the nine
    attribute names, an array of exactly itemSize times polygonCount numbers
    (none when polygonCount is negative): one row per vertex. *)
Theorem rebuild_publishes_one_row_per_vertex (w : World) :
  fst (generateScalarFieldGeometry w) = Normal tt ->
  forall name size,
    In (name, size) attributeLayout ->
    Z.of_nat (List.length (published (snd (generateScalarFieldGeometry w)) name))
    = (size * Z.max 0 (polygonCount (config (this w))))%Z.
Proof.
  intros Hn name size Hin.
  destruct (sweep (this w) (vertexIndices (config (this w))) noArrays)
    as [a | e | m] eqn:E.
  - rewrite (generateScalarFieldGeometry_Normal w a E); cbn [snd].
    pose proof (sweep_sizes _ _ _ _ E) as Hs.
    unfold vertexIndices in Hs; rewrite length_map, length_seq in Hs.
    unfold sizes in Hs; cbn in Hs.
    injection Hs as H1 H2 H3 H4 H5 H6 H7 H8 H9.
    pose proof (published_after_publish w a (attributes (this w))
                  (Logger._log (logger w) Logger.info
                     "SphericalCustomGeometry Generated") (this w))
      as (P1 & P2 & P3 & P4 & P5 & P6 & P7 & P8 & P9); cbn zeta in *.
    unfold attributeLayout in Hin; cbn [In] in Hin.
    repeat (destruct Hin as [[= <- <-] | Hin];
            [ rewrite ?P1, ?P2, ?P3, ?P4, ?P5, ?P6, ?P7, ?P8, ?P9; lia | ]).
    destruct Hin.
  - rewrite (generateScalarFieldGeometry_Throw w e E) in Hn; discriminate.
  - unfold generateScalarFieldGeometry in Hn; rewrite E in Hn; discriminate.
Qed.

(** X5, at an instance: the positions of the one-vertex Sphere engine. *)
Lemma rebuild_publishes_one_row_per_vertex_witness :
  Z.of_nat
    (List.length
       (published
          (snd (generateScalarFieldGeometry
                  (mkWorld (unitEngine "Sphere" None 0) Logger.loggerInstance)))
          "position"))
  = (3 * Z.max 0 1)%Z.
Proof.
  apply (rebuild_publishes_one_row_per_vertex
           (mkWorld (unitEngine "Sphere" None 0) Logger.loggerInstance)).
  - assert (wellFormed (unitEngine "Sphere" None 0)) as (Hm & Hs & Hw & Hh)
      by (apply unitEngine_wellFormed; eexists; reflexivity).
    apply generateScalarFieldGeometry_normal; assumption.
  - unfold attributeLayout; cbn [In]; left; reflexivity.
Defined.

(** X6: with a vertex count of 0 or less the loop body never runs, so
    construction returns normally and publishes nine empty arrays, whatever
    the grid dimensions and the initial shape, a shape that is not in the
    table included. *)
Theorem construction_without_vertices (random : nat -> R) (lg : Logger.t)
  (radius : option R) (n : Z) (o : option Options) :
  (n <= 0)%Z ->
  let result := constructor random lg radius (Some n) o in
  fst result = Normal tt /\
  attributes (this (snd result)) = publish noArrays [] /\
  forall name, published (snd result) name = [].
Proof.
  intros Hn; cbn zeta.
  assert (generateScalarFieldGeometry_empty :
            forall w, (polygonCount (config (this w)) <= 0)%Z ->
                      sweep (this w) (vertexIndices (config (this w))) noArrays
                      = Normal noArrays).
  { intros w Hw; unfold vertexIndices.
    replace (Z.to_nat (polygonCount (config (this w)))) with 0%nat by lia.
    reflexivity. }
  unfold constructor.
  match goal with
  | |- context [generateScalarFieldGeometry ?w0] =>
      rewrite (generateScalarFieldGeometry_Normal w0 noArrays
                 (generateScalarFieldGeometry_empty w0 Hn))
  end.
  cbn [fst snd this attributes set_attributes].
  repeat split.
  intros name; unfold published, publish, noArrays.
  cbn [snd this attributes set_attributes positions masses charges
       symmetryIndices lightProperties valencies volumes densities orientations].
  rewrite !assoc_setAttribute.
  repeat (destruct (String.eqb _ name); [ reflexivity | ]).
  reflexivity.
Qed.

(** X6, at an instance: no vertices and an initial shape that is not in the
    table. *)
Lemma construction_without_vertices_witness :
  let result :=
    constructor (fun _ => 0) Logger.loggerInstance None (Some 0%Z)
      (Some (mkOptions None None None None (Some "Pyramid"%string))) in
  fst result = Normal tt /\
  attributes (this (snd result)) = publish noArrays [] /\
  forall name, published (snd result) name = [].
Proof.
  apply (construction_without_vertices (fun _ => 0) Logger.loggerInstance None 0
           (Some (mkOptions None None None None (Some "Pyramid"%string)))).
  lia.
Defined.

(** ** Further properties of the property matrix *)

Lemma arrayFrom_nth {A : Type} (n : nat) (f : nat -> A) (drawn step k : nat) :
  (k < n)%nat ->
  nth_error (arrayFrom n f drawn step) k = Some (f (drawn + k * step)%nat).
Proof.
  revert drawn k; induction n as [ | n IH]; intros drawn k Hk; [ lia | ].
  destruct k as [ | k]; cbn.
  - f_equal; f_equal; lia.
  - rewrite IH by lia; f_equal; f_equal; lia.
Qed.

(** X7: the cell at column [x] and row [y] of the matrix built at
    construction is the one [generatePropertyCell] makes from draws number
    2k and 2k+1, where k = x * gridHeight + y: the draws are taken column by
    column, two per cell and each of them once, the first for the anisotropy
    and the second for the rugosity. *)
Theorem matrix_cell_draws (random : nat -> R) (c : Config) (x y : Z) :
  (0 <= x < gridWidth c)%Z ->
  (0 <= y < gridHeight c)%Z ->
  let k := (Z.to_nat x * Z.to_nat (gridHeight c) + Z.to_nat y)%nat in
  exists column cell,
    index (initializePropertyMatrix random c) x = Some column /\
    index column y = Some cell /\
    cell = generatePropertyCell random (2 * k) /\
    anisotropy cell = random (2 * k)%nat /\
    rugosity cell = random (2 * k + 1)%nat.
Proof.
  intros Hx Hy; cbn zeta.
  unfold index, initializePropertyMatrix.
  destruct (Z.ltb_spec x 0) as [ | _]; [ lia | ].
  destruct (Z.ltb_spec y 0) as [ | _]; [ lia | ].
  rewrite arrayFrom_nth by lia.
  eexists; eexists; split; [ reflexivity | ].
  rewrite arrayFrom_nth by lia.
  split; [ reflexivity | ].
  split; [ f_equal; lia | ].
  cbn [anisotropy rugosity generatePropertyCell].
  split; f_equal; lia.
Qed.

(** X7, at an instance: the cell (1, 2) of a 3 by 4 grid draws numbers 12
    and 13. *)
Lemma matrix_cell_draws_witness :
  let random := fun n => / (INR n + 2) in
  let c := mkConfig 100 500 3 4 0.5 true "Sphere" None in
  exists column cell,
    index (initializePropertyMatrix random c) 1 = Some column /\
    index column 2 = Some cell /\
    cell = generatePropertyCell random (2 * 6) /\
    anisotropy cell = random (2 * 6)%nat /\
    rugosity cell = random (2 * 6 + 1)%nat.
Proof.
  apply (matrix_cell_draws (fun n => / (INR n + 2))
           (mkConfig 100 500 3 4 0.5 true "Sphere" None) 1 2);
    cbn; lia.
Defined.

Lemma generatePropertyCell_constantFields (random : nat -> R) (drawn : nat) :
  constantFields (generatePropertyCell random drawn).
Proof. unfold constantFields; cbn; repeat split; lra. Qed.

Lemma initializePropertyMatrix_constantFields (random : nat -> R) (c : Config) :
  Forall (Forall constantFields) (initializePropertyMatrix random c).
Proof.
  unfold initializePropertyMatrix.
  apply arrayFrom_Forall; intros d; apply arrayFrom_Forall; intros d'.
  apply generatePropertyCell_constantFields.
Qed.

Lemma initializePropertyMatrix_unitDraws (random : nat -> R) (c : Config) :
  (forall n, 0 <= random n < 1) ->
  Forall (Forall unitDraws) (initializePropertyMatrix random c).
Proof.
  intros H; unfold initializePropertyMatrix.
  apply arrayFrom_Forall; intros d; apply arrayFrom_Forall; intros d'.
  unfold unitDraws; cbn; split; apply H.
Qed.

Lemma index_In {A : Type} (l : list A) (i : Z) (x : A) :
  index l i = Some x -> In x l.
Proof.
  unfold index; destruct (i <? 0)%Z; [ discriminate | ].
  apply nth_error_In.
Qed.

Section UniformCells.

Variable g : Geometry.
Variable P : PropertyCell -> Prop.
Hypothesis cells : Forall (Forall P) (propertyMatrix g).

(** The cell a vertex reads satisfies what every cell of the matrix does. *)
Lemma vertex_cell (i : Z) (a a' : Arrays) :
  vertex g i a = Normal a' ->
  exists cell r,
    P cell /\
    combinedSDF g (theta_of (config g) i) (phi_of (config g) i) (Some cell)
      (time (scalarField g)) = Normal r /\
    a' = mkArrays
           (positions a ++
              [r * sin (phi_of (config g) i) * cos (theta_of (config g) i);
               r * sin (phi_of (config g) i) * sin (theta_of (config g) i);
               r * cos (phi_of (config g) i)])
           (masses a ++ [10 + sphericity cell * 5])
           (charges a ++ [(rugosity cell - 0.5) * 2])
           (symmetryIndices a ++ [IZR (MathJS.floor (axisSymmetry cell * 8))])
           (lightProperties a ++ [0.3 + smoothness cell * 0.5;
                                  0.2 + edgeSharpness cell * 0.3])
           (valencies a ++ [IZR (MathJS.floor (localConnectivity cell * 4))])
           (volumes a ++ [10 + densityGradient cell * 10])
           (densities a ++ [0.2 + rigidity cell * 0.3])
           (orientations a ++ [0; 1; 0]).
Proof.
  unfold vertex.
  destruct (index (propertyMatrix g) _) as [column | ] eqn:Ex; [ | discriminate ].
  destruct (index column _) as [cell | ] eqn:Ey;
    (destruct (combinedSDF g _ _ _ _) as [r | e | m] eqn:E; cbn [bind];
     try discriminate).
  intros [= <-]; exists cell, r; split; [ | split; [ exact E | reflexivity ] ].
  apply index_In in Ex, Ey.
  rewrite Forall_forall in cells; specialize (cells _ Ex).
  rewrite Forall_forall in cells; apply cells; assumption.
Qed.

End UniformCells.

Lemma floor_8 : IZR (MathJS.floor (1 * 8)) = 8.
Proof.
  unfold MathJS.floor; replace (1 * 8) with (IZR 8) by (cbn; lra).
  rewrite ZfloorZ; reflexivity.
Qed.

Lemma floor_4 : IZR (MathJS.floor (1 * 4)) = 4.
Proof.
  unfold MathJS.floor; replace (1 * 4) with (IZR 4) by (cbn; lra).
  rewrite ZfloorZ; reflexivity.
Qed.

Lemma sweep_uniform (g : Geometry) (indices : list Z) (a a' : Arrays) :
  Forall (Forall constantFields) (propertyMatrix g) ->
  sweep g indices a = Normal a' ->
  let n := List.length indices in
  masses a' = masses a ++ repeat 15 n /\
  symmetryIndices a' = symmetryIndices a ++ repeat 8 n /\
  lightProperties a' = lightProperties a ++ List.concat (repeat [0.8; 0.35] n) /\
  valencies a' = valencies a ++ repeat 4 n /\
  volumes a' = volumes a ++ repeat 20 n /\
  densities a' = densities a ++ repeat 0.5 n /\
  orientations a' = orientations a ++ List.concat (repeat [0; 1; 0] n).
Proof.
  intros Hcells; revert a; induction indices as [ | i rest IH]; intros a;
    cbn [sweep List.length repeat List.concat].
  - intros [= <-]; rewrite !app_nil_r; repeat split; reflexivity.
  - destruct (vertex g i a) as [a1 | e | m] eqn:E; cbn [bind]; try discriminate.
    intros H; specialize (IH _ H); cbn zeta in IH.
    destruct (vertex_cell g constantFields Hcells i a a1 E)
      as (cell & r & (Hs & Hc & Hsm & He & Hax & Hl & Hd & Hr) & _ & ->).
    cbn [masses symmetryIndices lightProperties valencies volumes densities
         orientations] in IH.
    destruct IH as (I1 & I2 & I3 & I4 & I5 & I6 & I7).
    rewrite Hs, Hsm, He, Hax, Hl, Hd, Hr, floor_8, floor_4 in *.
    replace (10 + 1 * 5) with 15 in I1 by lra.
    replace (0.3 + 1 * 0.5) with 0.8 in I3 by lra.
    replace (0.2 + 0.5 * 0.3) with 0.35 in I3 by lra.
    replace (10 + 1 * 10) with 20 in I5 by lra.
    replace (0.2 + 1 * 0.3) with 0.5 in I6 by lra.
    rewrite I1, I2, I3, I4, I5, I6, I7, <- !app_assoc.
    repeat split; reflexivity.
Qed.

Lemma sweep_charges (g : Geometry) (indices : list Z) (a a' : Arrays) :
  Forall (Forall unitDraws) (propertyMatrix g) ->
  sweep g indices a = Normal a' ->
  Forall (fun v => -1 <= v <= 1) (charges a) ->
  Forall (fun v => -1 <= v <= 1) (charges a').
Proof.
  intros Hcells; revert a; induction indices as [ | i rest IH]; intros a;
    cbn [sweep].
  - intros [= <-]; trivial.
  - destruct (vertex g i a) as [a1 | e | m] eqn:E; cbn [bind]; try discriminate.
    intros H H0.
    destruct (vertex_cell g unitDraws Hcells i a a1 E)
      as (cell & r & (_ & [Hr0 Hr1]) & _ & ->).
    apply (IH _ H).
    cbn [charges]; apply Forall_app; split; [ assumption | ].
    constructor; [ lra | constructor ].
Qed.

(** X8: on an engine whose cells carry the constants of
    [generatePropertyCell], a regeneration that returns normally hands the
    same derived values to the buffer for every vertex: the mass array is
    15 repeated polygonCount times, the symmetry indices 8, the valencies
    4, the volumes 20, the densities 0.5, the light properties the pair
    reflectivity 0.8 then absorption 0.35 repeated, the orientations the
    triple 0, 1, 0 repeated; and when the draws of the cells are in [0, 1)
    every charge is in [-1, 1].  The values are those pushed, on the reals:
    the rounding of doubles and the 32-bit storage of the attributes, which
    rounds 0.8 and 0.35, are not represented. *)
Theorem rebuild_publishes_uniform_attributes (w : World) :
  Forall (Forall constantFields) (propertyMatrix (this w)) ->
  fst (generateScalarFieldGeometry w) = Normal tt ->
  let w' := snd (generateScalarFieldGeometry w) in
  let n := Z.to_nat (polygonCount (config (this w))) in
  published w' "mass" = repeat 15 n /\
  published w' "symmetryIndex" = repeat 8 n /\
  published w' "lightProperties" = List.concat (repeat [0.8; 0.35] n) /\
  published w' "valency" = repeat 4 n /\
  published w' "volume" = repeat 20 n /\
  published w' "density" = repeat 0.5 n /\
  published w' "orientation" = List.concat (repeat [0; 1; 0] n) /\
  (Forall (Forall unitDraws) (propertyMatrix (this w)) ->
   Forall (fun v => -1 <= v <= 1) (published w' "charge")).
Proof.
  intros Hcells Hn; cbn zeta.
  destruct (sweep (this w) (vertexIndices (config (this w))) noArrays)
    as [a | e | m] eqn:E.
  - rewrite (generateScalarFieldGeometry_Normal w a E); cbn [snd].
    pose proof (published_after_publish w a (attributes (this w))
                  (Logger._log (logger w) Logger.info
                     "SphericalCustomGeometry Generated") (this w))
      as (_ & P2 & P3 & P4 & P5 & P6 & P7 & P8 & P9); cbn zeta in *.
    rewrite P2, P3, P4, P5, P6, P7, P8, P9.
    pose proof (sweep_uniform _ _ _ _ Hcells E) as Hu; cbn zeta in Hu.
    unfold vertexIndices in Hu at 1 2 3 4 5 6 7.
    rewrite length_map, length_seq in Hu.
    destruct Hu as (U1 & U2 & U3 & U4 & U5 & U6 & U7).
    cbn [noArrays masses symmetryIndices lightProperties valencies volumes
         densities orientations app] in *.
    repeat (split; [ assumption | ]).
    intros Hdraws; apply (sweep_charges _ _ _ _ Hdraws E); cbn; constructor.
  - rewrite (generateScalarFieldGeometry_Throw w e E) in Hn; discriminate.
  - unfold generateScalarFieldGeometry in Hn; rewrite E in Hn; discriminate.
Qed.

(** X8, at an instance: the one-cell Sphere engine. *)
Lemma rebuild_publishes_uniform_attributes_witness :
  let w' :=
    snd (generateScalarFieldGeometry
           (mkWorld (unitEngine "Sphere" None 0) Logger.loggerInstance)) in
  published w' "mass" = [15] /\
  published w' "symmetryIndex" = [8] /\
  published w' "lightProperties" = [0.8; 0.35] /\
  published w' "valency" = [4] /\
  published w' "volume" = [20] /\
  published w' "density" = [0.5] /\
  published w' "orientation" = [0; 1; 0] /\
  (Forall (Forall unitDraws)
     (propertyMatrix (this (mkWorld (unitEngine "Sphere" None 0)
                              Logger.loggerInstance))) ->
   Forall (fun v => -1 <= v <= 1) (published w' "charge")).
Proof.
  apply (rebuild_publishes_uniform_attributes
           (mkWorld (unitEngine "Sphere" None 0) Logger.loggerInstance)).
  - constructor; [ | constructor ].
    constructor; [ exact flatCell_constantFields | constructor ].
  - assert (wellFormed (unitEngine "Sphere" None 0)) as (Hm & Hs & Hw & Hh)
      by (apply unitEngine_wellFormed; eexists; reflexivity).
    apply generateScalarFieldGeometry_normal; assumption.
Defined.

(** ** Construction that fails *)

Lemma sweep_first_throws (g : Geometry) (e : exn) :
  (1 <= polygonCount (config g))%Z ->
  vertex g 0 noArrays = Throw e ->
  sweep g (vertexIndices (config g)) noArrays = Throw e.
Proof.
  intros Hn Hv; unfold vertexIndices.
  destruct (Z.to_nat (polygonCount (config g))) as [ | k] eqn:E; [ lia | ].
  cbn [seq map sweep Z.of_nat]; rewrite Hv; reflexivity.
Qed.

(** X9: a negative grid width is kept by the constructor (only 0 is replaced
    by the default 200), the matrix it builds is then empty, and with at
    least one vertex construction throws a TypeError at the first read of
    the matrix; nothing is published and the failure is logged as an
    error. *)
Theorem construction_with_negative_grid_width (random : nat -> R)
  (lg : Logger.t) (radius : option R) (n width : Z) (o : Options) :
  (1 <= n)%Z ->
  (width < 0)%Z ->
  opt_gridWidth o = Some width ->
  constructor random lg radius (Some n) (Some o)
  = (Throw (undefinedRead "gridY"),
     mkWorld
       (mkGeometry
          (initialConfig match radius with Some r => r | None => 100 end n o)
          (ShapeMorphEngine.mk match radius with Some r => r | None => 100 end)
          []
          (mkScalarField 0 (mkTransition None None 0))
          [])
       (Logger.mk (Logger.logLevel lg)
          (Logger.console lg
           ++ [(Logger.error, "SphericalCustomGeometry Generation Failed"%string)]))).
Proof.
  intros Hn Hw Ho; unfold constructor.
  set (c := initialConfig _ n o).
  assert (gridWidth c = width) as Hgw.
  { unfold c, initialConfig; cbn [gridWidth]; rewrite Ho; unfold orZ.
    destruct (Z.eqb_spec width 0); [ lia | reflexivity ]. }
  assert (initializePropertyMatrix random c = []) as Hm.
  { unfold initializePropertyMatrix; rewrite Hgw.
    replace (Z.to_nat width) with 0%nat by lia; reflexivity. }
  rewrite Hm.
  rewrite generateScalarFieldGeometry_Throw with (e := undefinedRead "gridY").
  - rewrite log_error; reflexivity.
  - apply sweep_first_throws; [ exact Hn | ].
    unfold vertex; cbn [propertyMatrix this].
    unfold index; destruct (_ <? 0)%Z; [ reflexivity | ].
    destruct (Z.to_nat _); reflexivity.
Qed.

(** X9, at an instance: a grid width of -5 and one vertex. *)
Lemma construction_with_negative_grid_width_witness :
  fst (constructor (fun _ => 0) Logger.loggerInstance None (Some 1%Z)
         (Some (mkOptions (Some (-5)%Z) None None None None)))
  = Throw (undefinedRead "gridY").
Proof.
  rewrite (construction_with_negative_grid_width (fun _ => 0)
             Logger.loggerInstance None 1 (-5)
             (mkOptions (Some (-5)%Z) None None None None));
    [ reflexivity | lia | lia | reflexivity ].
Defined.

(** X10: the constructor takes any non-empty string as the initial shape;
    when its lookup in the table is undefined, the grid has at least one
    cell each way and there is at least one vertex, construction throws the
    TypeError of calling [undefined] at the first vertex, publishes nothing
    and logs the failure as an error. *)
Theorem construction_with_unknown_shape (random : nat -> R) (lg : Logger.t)
  (radius : option R) (n : Z) (o : Options) :
  (1 <= n)%Z ->
  (1 <= orZ (opt_gridWidth o) 200)%Z ->
  (1 <= orZ (opt_gridHeight o) 200)%Z ->
  ShapeMorphEngine.get (orString (opt_currentShape o) "Sphere")
    = ShapeMorphEngine.Undefined ->
  let result := constructor random lg radius (Some n) (Some o) in
  fst result = Throw (TypeError "undefined is not a function") /\
  attributes (this (snd result)) = [] /\
  logger (snd result)
    = Logger.mk (Logger.logLevel lg)
        (Logger.console lg
         ++ [(Logger.error, "SphericalCustomGeometry Generation Failed"%string)]).
Proof.
  intros Hn Hw Hh Hs; cbn zeta; unfold constructor.
  set (c := initialConfig _ n o).
  rewrite generateScalarFieldGeometry_Throw
    with (e := TypeError "undefined is not a function").
  - rewrite log_error; repeat split; reflexivity.
  - apply sweep_first_throws; [ exact Hn | ].
    cbn [this].
    match goal with
    | |- vertex ?g 0 noArrays = _ =>
        destruct (matrix_lookup g 0) as (column & cell & Hx & Hy)
    end.
    + apply initializePropertyMatrix_fits.
    + cbn; lia.
    + exact Hw.
    + exact Hh.
    + unfold vertex; rewrite Hx, Hy.
      unfold combinedSDF; cbn [config currentShape c initialConfig].
      rewrite Hs; reflexivity.
Qed.

(** X10, at an instance: the initial shape "Pyramid" and one vertex. *)
Lemma construction_with_unknown_shape_witness :
  let result :=
    constructor (fun _ => 0) Logger.loggerInstance None (Some 1%Z)
      (Some (mkOptions None None None None (Some "Pyramid"%string))) in
  fst result = Throw (TypeError "undefined is not a function") /\
  attributes (this (snd result)) = [] /\
  logger (snd result)
    = Logger.mk Logger.info
        [(Logger.error, "SphericalCustomGeometry Generation Failed"%string)].
Proof.
  apply (construction_with_unknown_shape (fun _ => 0) Logger.loggerInstance
           None 1 (mkOptions None None None None (Some "Pyramid"%string)));
    try reflexivity; cbn; lia.
Defined.

(** ** Further properties of morph requests and ticks *)

(** X11: right after an accepted morph request the evaluator returns, at
    every angle, what it returns for the shape that was current before the
    request with no interpolation at all: a new transition starts from the
    profile of the current shape identifier, not from a radius blended by a
    transition the request interrupts.  On an engine that was idle the
    request therefore leaves the surface where it was. *)
Theorem morph_request_starts_from_current_shape (w : World) (target : string)
  (d : option R) (theta phi : R) (props : option PropertyCell) (t : R) :
  registered (shapeOf w) ->
  registered target ->
  combinedSDF (this (morphToShape w target d)) theta phi props t
  = combinedSDF
      (set_config (set_shapeInterpolation None (config (this w))) (this w))
      theta phi props t /\
  (transitionOf w = None ->
   combinedSDF (this (morphToShape w target d)) theta phi props t
   = combinedSDF (this w) theta phi props t).
Proof.
  intros [fc Hc] [ft Ht].
  assert (combinedSDF (this (morphToShape w target d)) theta phi props t
          = combinedSDF
              (set_config (set_shapeInterpolation None (config (this w))) (this w))
              theta phi props t) as Hstart.
  { rewrite morphToShape_accepted by (rewrite Ht; reflexivity).
    unfold combinedSDF, shapeOf in *; cbn; rewrite Ht, Hc; cbn.
    destruct props as [cell | ]; [ | reflexivity ].
    unfold MathJS.lerp; f_equal; ring. }
  split; [ exact Hstart | ].
  intros Hidle; rewrite Hstart.
  unfold combinedSDF, transitionOf in *; cbn; rewrite Hidle; reflexivity.
Qed.

(** X11, at an instance: "Cube" requested on the idle one-cell Sphere
    engine. *)
Lemma morph_request_starts_from_current_shape_witness :
  combinedSDF
    (this (morphToShape
             (mkWorld (unitEngine "Sphere" None 0) Logger.loggerInstance)
             "Cube" (Some 2)))
    0 0 (Some flatCell) 0
  = combinedSDF (unitEngine "Sphere" None 0) 0 0 (Some flatCell) 0.
Proof.
  refine (proj2 (morph_request_starts_from_current_shape
                   (mkWorld (unitEngine "Sphere" None 0) Logger.loggerInstance)
                   "Cube" (Some 2) 0 0 (Some flatCell) 0 _ _) eq_refl);
    eexists; reflexivity.
Defined.

Lemma log_keeps (lg : Logger.t) (l : Logger.level) (message : string)
  (entry : Logger.level * string) :
  In entry (Logger.console lg) ->
  In entry (Logger.console (Logger._log lg l message)).
Proof.
  intros H; unfold Logger._log; destruct (_ <=? _)%Z; [ | exact H ].
  cbn; apply in_or_app; left; exact H.
Qed.

Lemma generateScalarFieldGeometry_keeps_log (w : World)
  (entry : Logger.level * string) :
  In entry (Logger.console (logger w)) ->
  In entry (Logger.console (logger (snd (generateScalarFieldGeometry w)))).
Proof.
  intros H; unfold generateScalarFieldGeometry.
  destruct (sweep _ _ _); cbn [snd logger]; try apply log_keeps; exact H.
Qed.

Lemma update_keeps_log (w : World) (deltaTime : R)
  (entry : Logger.level * string) :
  dynamicEvolution (config (this w)) = true ->
  In entry (Logger.console (logger (advance w deltaTime))) ->
  In entry (Logger.console (logger (snd (update w deltaTime)))).
Proof.
  intros Hon H; unfold update; rewrite Hon.
  pose proof (generateScalarFieldGeometry_keeps_log _ entry H) as Hg.
  destruct (generateScalarFieldGeometry (advance w deltaTime)) as [[u | e | m] w'];
    cbn [snd logger] in *; try apply log_keeps; exact Hg.
Qed.

(** X12: a tick at least as long as what is left of a transition of
    positive duration (its duration times one minus the progress) completes
    it: the progress
    becomes exactly 1, the interpolation is cleared, the current shape stays
    the target, and, with the log level at info or finer, "Shape Morphing
    Complete" is logged. *)
Theorem tick_completes_transition (w : World) (deltaTime : R)
  (i : ShapeInterpolation) :
  dynamicEvolution (config (this w)) = true ->
  transitionOf w = Some i ->
  0 < duration i ->
  duration i * (1 - progressOf w) <= deltaTime ->
  let w' := snd (update w deltaTime) in
  progressOf w' = 1 /\
  transitionOf w' = None /\
  shapeOf w' = shapeOf w /\
  ((Logger.logLevels Logger.info <=? Logger.logLevels (Logger.logLevel (logger w)))%Z
   = true ->
   In (Logger.info, "Shape Morphing Complete"%string)
     (Logger.console (logger w'))).
Proof.
  intros Hon Hi Hd Hlong; cbn zeta.
  destruct (update_transitioning w deltaTime i Hon Hi)
    as (Hp & Hs & _ & Hdone & _); cbn zeta in *.
  assert (1 <= progressOf w + deltaTime / duration i) as Hfull.
  { apply Rmult_le_reg_r with (duration i); [ assumption | ].
    unfold Rdiv; rewrite Rmult_plus_distr_r, Rmult_assoc, Rinv_l by lra; lra. }
  assert (MathJS.min (progressOf w + deltaTime / duration i) 1 = 1) as Hone
    by (unfold MathJS.min; apply Rmin_right; assumption).
  rewrite Hone in *.
  repeat split; try assumption; [ apply Hdone; lra | ].
  intros Hlevel; apply update_keeps_log; [ assumption | ].
  unfold advance, transitionOf, progressOf in *; cbn; rewrite Hi; cbn.
  destruct (Rge_dec _ _) as [_ | Hno].
  - cbn [logger]; unfold Logger._log; rewrite Hlevel; cbn.
    apply in_or_app; right; left; reflexivity.
  - exfalso; apply Hno; unfold MathJS.min in *; rewrite Hone; lra.
Qed.

(** X12, at an instance: half-way through a transition of 2, a tick of 1. *)
Lemma tick_completes_transition_witness :
  let w :=
    mkWorld (unitEngine "Cube" (Some (mkInterpolation "Sphere" "Cube" 2)) 0.5)
      Logger.loggerInstance in
  let w' := snd (update w 1) in
  progressOf w' = 1 /\
  transitionOf w' = None /\
  shapeOf w' = shapeOf w /\
  ((Logger.logLevels Logger.info <=? Logger.logLevels (Logger.logLevel (logger w)))%Z
   = true ->
   In (Logger.info, "Shape Morphing Complete"%string)
     (Logger.console (logger w'))).
Proof.
  apply (tick_completes_transition
           (mkWorld (unitEngine "Cube" (Some (mkInterpolation "Sphere" "Cube" 2)) 0.5)
              Logger.loggerInstance)
           1 (mkInterpolation "Sphere" "Cube" 2)).
  - reflexivity.
  - reflexivity.
  - cbn; lra.
  - cbn; lra.
Defined.

(** X13: while a transition does not complete, its progress depends on the
    time elapsed only, not on how the time is cut into frames: after ticks
    of non-negative deltas whose sum stays below what is left of the
    transition, the progress has grown by the sum divided by the duration
    and the interpolation is still in place. *)
Theorem progress_accumulates (deltas : list R) (w : World)
  (i : ShapeInterpolation) :
  dynamicEvolution (config (this w)) = true ->
  transitionOf w = Some i ->
  0 < duration i ->
  Forall (fun deltaTime => 0 <= deltaTime) deltas ->
  progressOf w + elapsed (map tick deltas) / duration i < 1 ->
  progressOf (run w (map tick deltas))
    = progressOf w + elapsed (map tick deltas) / duration i /\
  transitionOf (run w (map tick deltas)) = Some i.
Proof.
  intros Hon Hi Hd Hpos; revert w Hon Hi.
  induction Hpos as [ | deltaTime deltas Hdt Htail IH]; intros w Hon Hi Hlt.
  - cbn in *; split; [ unfold Rdiv; ring | assumption ].
  - cbn [map elapsed run fold_left step] in *.
    assert (0 <= elapsed (map tick deltas)) as Hrest.
    { clear - Htail; induction Htail; cbn; lra. }
    assert (0 <= elapsed (map tick deltas) / duration i) as Hrest'
      by (apply Rmult_le_pos; [ | left; apply Rinv_0_lt_compat ]; assumption).
    assert (0 <= deltaTime / duration i) as Hdt'
      by (apply Rmult_le_pos; [ | left; apply Rinv_0_lt_compat ]; assumption).
    assert ((deltaTime + elapsed (map tick deltas)) / duration i
            = deltaTime / duration i + elapsed (map tick deltas) / duration i)
      as Hsplit by (unfold Rdiv; ring).
    rewrite Hsplit in *.
    destruct (update_transitioning w deltaTime i Hon Hi)
      as (Hp & _ & Hon' & _ & Hgo); cbn zeta in *.
    assert (MathJS.min (progressOf w + deltaTime / duration i) 1
            = progressOf w + deltaTime / duration i) as Hmin
      by (unfold MathJS.min; apply Rmin_left; lra).
    rewrite Hmin in *.
    destruct (IH (snd (update w deltaTime)) Hon' (Hgo ltac:(lra)))
      as [Hp' Ht']; [ rewrite Hp; lra | ].
    fold (run (snd (update w deltaTime)) (map tick deltas)).
    split; [ rewrite Hp', Hp; ring | exact Ht' ].
Qed.

(** X13, at an instance: three ticks of 0.5 into a transition of 2. *)
Lemma progress_accumulates_witness :
  let w :=
    mkWorld (unitEngine "Cube" (Some (mkInterpolation "Sphere" "Cube" 2)) 0)
      Logger.loggerInstance in
  progressOf (run w (map tick [0.5; 0.5; 0.5]))
    = progressOf w + elapsed (map tick [0.5; 0.5; 0.5]) / 2 /\
  transitionOf (run w (map tick [0.5; 0.5; 0.5]))
    = Some (mkInterpolation "Sphere" "Cube" 2).
Proof.
  apply (progress_accumulates [0.5; 0.5; 0.5]
           (mkWorld (unitEngine "Cube" (Some (mkInterpolation "Sphere" "Cube" 2)) 0)
              Logger.loggerInstance)
           (mkInterpolation "Sphere" "Cube" 2)).
  - reflexivity.
  - reflexivity.
  - cbn; lra.
  - repeat constructor; lra.
  - cbn; lra.
Defined.

(** ** Runs of requests and ticks *)

Lemma advance_fixedPart (w : World) (deltaTime : R) :
  fixedPart (this (advance w deltaTime)) = fixedPart (this w).
Proof.
  unfold advance, fixedPart.
  destruct (shapeInterpolation _); [ destruct (Rge_dec _ _) | ]; reflexivity.
Qed.

Lemma step_fixedPart (w : World) (o : operation) :
  fixedPart (this (step w o)) = fixedPart (this w).
Proof.
  destruct o as [target d | deltaTime]; cbn [step].
  - unfold morphToShape; destruct (negb _); reflexivity.
  - unfold update; destruct (dynamicEvolution (config (this w))); [ | reflexivity ].
    rewrite <- (advance_fixedPart w deltaTime).
    pose proof (generateScalarFieldGeometry_frame (advance w deltaTime))
      as (Hc & Hm & _ & He); cbn zeta in *.
    destruct (generateScalarFieldGeometry (advance w deltaTime)) as [[u | e | m] w'];
      cbn [snd this] in *; unfold fixedPart; rewrite Hc, Hm, He; reflexivity.
Qed.

(** X14: no sequence of morph requests and updates changes the base radius,
    the vertex count, the grid dimensions, the morph speed, the evolution
    flag, the property matrix or the morph engine of an engine: after
    construction only the current shape, the transition, the clock and the
    buffer move. *)
Theorem run_keeps_fixed_part (ops : list operation) (w : World) :
  fixedPart (this (run w ops)) = fixedPart (this w).
Proof.
  revert w; induction ops as [ | o ops IH]; intros w; [ reflexivity | ].
  cbn [run fold_left]; fold (run (step w o) ops).
  rewrite IH; apply step_fixedPart.
Qed.

Lemma step_time (w : World) (o : operation) :
  timeOf (step w o)
  = timeOf w
    + (if dynamicEvolution (config (this w))
       then morphSpeed (config (this w)) * elapsed [o] else 0).
Proof.
  destruct o as [target d | deltaTime]; cbn [step elapsed].
  - unfold morphToShape, timeOf; destruct (negb _); cbn;
      destruct (dynamicEvolution _); ring.
  - destruct (dynamicEvolution (config (this w))) eqn:Hon.
    + destruct (update_enabled w deltaTime Hon) as (_ & Hf & _).
      unfold timeOf; rewrite Hf; fold (timeOf (advance w deltaTime)).
      rewrite advance_time; unfold timeOf; ring.
    + rewrite update_disabled by assumption; cbn; ring.
Qed.

(** X15: the clock of an engine is its morph speed times the time ticked:
    after any sequence of morph requests and updates on an engine with
    evolution enabled, the scalar field's time has grown by morphSpeed times
    the sum of the deltas of the updates, morph requests leaving it alone;
    with evolution disabled it has not moved. *)
Theorem run_advances_clock (ops : list operation) (w : World) :
  timeOf (run w ops)
  = timeOf w
    + (if dynamicEvolution (config (this w))
       then morphSpeed (config (this w)) * elapsed ops else 0).
Proof.
  revert w; induction ops as [ | o ops IH]; intros w.
  - cbn; destruct (dynamicEvolution _); ring.
  - cbn [run fold_left]; fold (run (step w o) ops).
    rewrite IH, step_time.
    pose proof (step_fixedPart w o) as Hfix; unfold fixedPart in Hfix.
    injection Hfix as _ _ _ _ Hms Hon _ _.
    rewrite Hms, Hon.
    replace (elapsed (o :: ops)) with (elapsed [o] + elapsed ops)
      by (destruct o; cbn; ring).
    destruct (dynamicEvolution (config (this w))); ring.
Qed.

Lemma plain_target (target : string) :
  existsb (String.eqb target) ShapeMorphEngine.objectPrototypeKeys = false ->
  registered target \/ ShapeMorphEngine.get target = ShapeMorphEngine.Undefined.
Proof.
  intros H; unfold registered, ShapeMorphEngine.get.
  destruct (ShapeMorphEngine.assoc target ShapeMorphEngine.shapeSDFs) as [f | ].
  - left; exists f; reflexivity.
  - right; rewrite H; reflexivity.
Qed.

Lemma step_wellFormed (w : World) (o : operation) :
  plainRequest o -> wellFormed (this w) -> wellFormed (this (step w o)).
Proof.
  destruct o as [target d | deltaTime]; cbn [step plainRequest]; intros Hp Hw.
  - destruct (plain_target target Hp) as [Hr | Hu].
    + apply morphToShape_wellFormed; assumption.
    + rewrite morphToShape_rejected by (rewrite Hu; reflexivity); exact Hw.
  - apply update_wellFormed; exact Hw.
Qed.

(** X16: on an engine on which a regeneration goes through (a matrix of the
    configured dimensions, a grid of at least one cell each way, shapes of
    the table), no sequence of morph requests and updates makes an update
    throw, whatever the targets (unknown ones are rejected), the durations
    and the time deltas, as long as no target is the name of a member that
    every object inherits: every update of the run returns normally. *)
Theorem updates_never_throw (ops : list operation) (w : World) :
  wellFormed (this w) ->
  Forall plainRequest ops ->
  Forall (eq (Normal tt)) (outcomes w ops).
Proof.
  intros Hw Hops; revert w Hw.
  induction Hops as [ | o ops Ho _ IH]; intros w Hw; [ constructor | ].
  pose proof (step_wellFormed w o Ho Hw) as Hw'.
  destruct o as [target d | deltaTime]; cbn [outcomes step] in *.
  - apply IH; exact Hw'.
  - constructor; [ symmetry; apply update_normal; exact Hw | apply IH; exact Hw' ].
Qed.

(** X16, at an instance: an unknown target, a request that interrupts
    nothing and a negative time delta on the one-cell Sphere engine. *)
Lemma updates_never_throw_witness :
  Forall (eq (Normal tt))
    (outcomes (mkWorld (unitEngine "Sphere" None 0) Logger.loggerInstance)
       [ tick 1; requestMorph "Nonexistent" None; requestMorph "Cube" (Some 2);
         tick (-1); tick 3 ]).
Proof.
  apply (updates_never_throw
           [ tick 1; requestMorph "Nonexistent" None; requestMorph "Cube" (Some 2);
             tick (-1); tick 3 ]
           (mkWorld (unitEngine "Sphere" None 0) Logger.loggerInstance)).
  - apply unitEngine_wellFormed; eexists; reflexivity.
  - repeat constructor.
Defined.

(** ** The log of an update *)

Lemma advance_idle_logger (w : World) (deltaTime : R) :
  transitionOf w = None -> logger (advance w deltaTime) = logger w.
Proof. unfold transitionOf, advance; cbn; intros ->; reflexivity. Qed.

Lemma log_appends (lg : Logger.t) (l : Logger.level) (message : string) :
  Logger._log lg l message
  = Logger.mk (Logger.logLevel lg)
      (Logger.console lg
       ++ (if (Logger.logLevels l <=? Logger.logLevels (Logger.logLevel lg))%Z
           then [(l, message)] else [])).
Proof.
  unfold Logger._log; destruct lg as [level console]; cbn.
  destruct (_ <=? _)%Z; [ reflexivity | rewrite app_nil_r; reflexivity ].
Qed.

(** X17: the level [setLogLevel] sets decides what an update writes.  On an
    idle engine on which the regeneration goes through, an update run under
    the logger that [setLogLevel(name)] returns appends "SphericalCustomGeometry
    Generated" when the level in force is info or finer and then "Geometry
    Updated" when it is debug or finer, and nothing else; the level in force
    is the one [name] names, or the previous one when [name] names none. *)
Theorem update_log_under_level (w : World) (name : string) (deltaTime : R) :
  wellFormed (this w) ->
  dynamicEvolution (config (this w)) = true ->
  transitionOf w = None ->
  let lg := fst (LoggerControl.setLogLevel (logger w) name) in
  let level :=
    match LoggerControl.levelOfString name with
    | Some l => l
    | None => Logger.logLevel (logger w)
    end in
  Logger.logLevel lg = level /\
  logger (snd (update (mkWorld (this w) lg) deltaTime))
  = Logger.mk level
      (Logger.console (logger w)
       ++ (if (Logger.logLevels Logger.info <=? Logger.logLevels level)%Z
           then [(Logger.info, "SphericalCustomGeometry Generated"%string)]
           else [])
       ++ (if (Logger.logLevels Logger.debug <=? Logger.logLevels level)%Z
           then [(Logger.debug, "Geometry Updated"%string)]
           else [])).
Proof.
  intros Hwf Hon Hidle; cbn zeta.
  set (lg := fst (LoggerControl.setLogLevel (logger w) name)).
  set (level := match LoggerControl.levelOfString name with
                | Some l => l
                | None => Logger.logLevel (logger w)
                end).
  assert (Logger.logLevel lg = level /\ Logger.console lg = Logger.console (logger w))
    as [Hlevel Hconsole].
  { unfold lg, level, LoggerControl.setLogLevel.
    destruct (LoggerControl.levelOfString name); split; reflexivity. }
  split; [ exact Hlevel | ].
  set (w0 := mkWorld (this w) lg).
  assert (wellFormed (this (advance w0 deltaTime))) as (Hm & Hs & Hgw & Hgh)
    by (apply advance_wellFormed; exact Hwf).
  destruct (sweep_normal _ Hm Hs Hgw Hgh _ noArrays
              (vertexIndices_in_range (config (this (advance w0 deltaTime)))))
    as [a Ha].
  unfold update; cbn [w0 this]; rewrite Hon.
  rewrite (generateScalarFieldGeometry_Normal _ a Ha); cbn [snd logger].
  rewrite (advance_idle_logger w0 deltaTime Hidle); cbn [w0 logger].
  rewrite !log_appends; cbn [Logger.logLevel Logger.console].
  rewrite Hlevel, Hconsole, <- app_assoc; reflexivity.
Qed.

(** X17, at an instance: the level "debug" that the application sets, on the
    one-cell Sphere engine. *)
Lemma update_log_under_level_witness :
  logger
    (snd (update
            (mkWorld (unitEngine "Sphere" None 0)
               (fst (LoggerControl.setLogLevel Logger.loggerInstance "debug")))
            1))
  = Logger.mk Logger.debug
      [ (Logger.info, "SphericalCustomGeometry Generated"%string);
        (Logger.debug, "Geometry Updated"%string) ].
Proof.
  refine (proj2 (update_log_under_level
                   (mkWorld (unitEngine "Sphere" None 0) Logger.loggerInstance)
                   "debug" 1 _ _ _)).
  - apply unitEngine_wellFormed; eexists; reflexivity.
  - reflexivity.
  - reflexivity.
Defined.

(** ** The shape table *)

(** X18: [getShapeParameters] never returns an undefined profile: for the
    six identifiers of the table it returns the identifier's own profile,
    and for any other name something truthy (the Sphere profile when the
    lookup is undefined); the morph parameters it returns exist for Sphere
    (complexity 1) and Cube (edge sharpness 0.8) only, and are undefined for
    Cone, Cylinder, Torus and Parabola; for the name of a member that every
    object inherits they are that member. *)
Theorem getShapeParameters_total (name : string) :
  ShapeMorphEngine.truthy
    (ShapeMorphEngine.sdfFunction (ShapeMorphEngine.getShapeParameters name))
    = true /\
  (In name ids ->
   ShapeMorphEngine.sdfFunction (ShapeMorphEngine.getShapeParameters name)
     = ShapeMorphEngine.get name /\
   ShapeMorphEngine.morphParams (ShapeMorphEngine.getShapeParameters name)
     = if String.eqb name "Sphere"
       then ShapeMorphEngine.OwnParameters (ShapeMorphEngine.complexity 1)
       else if String.eqb name "Cube"
       then ShapeMorphEngine.OwnParameters (ShapeMorphEngine.edgeSharpness 0.8)
       else ShapeMorphEngine.NoParameters) /\
  (In name ShapeMorphEngine.objectPrototypeKeys ->
   ShapeMorphEngine.morphParams (ShapeMorphEngine.getShapeParameters name)
     = ShapeMorphEngine.InheritedParameters name).
Proof.
  split; [ | split ].
  - unfold ShapeMorphEngine.getShapeParameters; cbn [ShapeMorphEngine.sdfFunction].
    destruct (ShapeMorphEngine.truthy (ShapeMorphEngine.get name)) eqn:E;
      [ exact E | reflexivity ].
  - unfold ids; cbn [In].
    intros [<- | [<- | [<- | [<- | [<- | [<- | []]]]]]]; split; reflexivity.
  - unfold ShapeMorphEngine.objectPrototypeKeys; cbn [In].
    intros H; repeat (destruct H as [<- | H]; [ reflexivity | ]).
    destruct H.
Qed.

(** X18, at an instance: the Torus has a profile and no morph parameters. *)
Lemma getShapeParameters_total_witness :
  ShapeMorphEngine.sdfFunction (ShapeMorphEngine.getShapeParameters "Torus")
    = ShapeMorphEngine.get "Torus" /\
  ShapeMorphEngine.morphParams (ShapeMorphEngine.getShapeParameters "Torus")
    = ShapeMorphEngine.NoParameters.
Proof.
  refine (proj1 (proj2 (getShapeParameters_total "Torus")) _).
  unfold ids; cbn [In]; tauto.
Defined.

(** ** The earlier revisions *)

(** X19: with "Sphere" as the current shape and no interpolation in
    progress, the evaluator of the morphing engine computes what the
    evaluator of the revision before shape morphing computed, for every
    angle, cell and time, a missing cell included (both throw). *)
Theorem combinedSDF_extends_legacy (g : Geometry) (theta phi : R)
  (props : option PropertyCell) (t : R) :
  currentShape (config g) = "Sphere"%string ->
  shapeInterpolation (config g) = None ->
  combinedSDF g theta phi props t
  = Legacy.combinedSDF (radius (config g)) theta phi props t.
Proof.
  intros Hs Hi; unfold combinedSDF, Legacy.combinedSDF; rewrite Hs, Hi.
  destruct props; reflexivity.
Qed.

(** X19, at an instance: the one-cell Sphere engine. *)
Lemma combinedSDF_extends_legacy_witness :
  combinedSDF (unitEngine "Sphere" None 0) 0 0 (Some flatCell) 0
  = Legacy.combinedSDF 1 0 0 (Some flatCell) 0.
Proof.
  apply (combinedSDF_extends_legacy (unitEngine "Sphere" None 0) 0 0
           (Some flatCell) 0); reflexivity.
Defined.

Lemma remainder_range (i m : Z) :
  (0 <= i)%Z -> (0 < m)%Z ->
  0 <= IZR (Legacy.remainder i m) <= IZR (m - 1).
Proof.
  intros Hi Hm; unfold Legacy.remainder.
  pose proof (Z.rem_bound_pos i m Hi Hm) as [Hlo Hhi].
  split; apply IZR_le; lia.
Qed.

(** X20: in the first revision, whose constructor takes a radius and a
    vertex count only, vertex [i] of [polygonCount] lies at the distance
    radius * (1 + i / polygonCount) from the origin, between the radius and
    twice the radius, and its attributes are bounded: mass in [10, 14],
    charge in [-1, 1], symmetry index in [0, 7], reflectivity in [0.3, 1.2],
    valency in [0, 3], volume in [10, 30] and density in [0.2, 0.6].  The
    distance and the bounds are on the reals: the code's doubles and the
    32-bit storage of the attributes round, and pass the upper bounds of the
    reflectivity and the density by a rounding error. *)
Theorem legacy_vertex_bounds (radius : R) (polygonCount i : Z) (a : Arrays) :
  0 <= radius ->
  (0 <= i < polygonCount)%Z ->
  let a' := Legacy.staticVertex radius polygonCount i a in
  (exists x y z r,
     positions a' = positions a ++ [x; y; z] /\
     r = radius * (1 + IZR i / IZR polygonCount) /\
     squaredNorm x y z = r * r /\
     radius <= r <= 2 * radius) /\
  (exists m, masses a' = masses a ++ [m] /\ 10 <= m <= 14) /\
  (exists c, charges a' = charges a ++ [c] /\ -1 <= c <= 1) /\
  (exists s, symmetryIndices a' = symmetryIndices a ++ [s] /\ 0 <= s <= 7) /\
  (exists l, lightProperties a' = lightProperties a ++ [l; 0.2] /\
             0.3 <= l <= 1.2) /\
  (exists v, valencies a' = valencies a ++ [v] /\ 0 <= v <= 3) /\
  (exists v, volumes a' = volumes a ++ [v] /\ 10 <= v <= 30) /\
  (exists d, densities a' = densities a ++ [d] /\ 0.2 <= d <= 0.6).
Proof.
  intros Hr Hi; cbn zeta; unfold Legacy.staticVertex;
    cbn [positions masses charges symmetryIndices lightProperties valencies
         volumes densities].
  pose proof (remainder_range i 5 ltac:(lia) ltac:(lia)) as H5.
  pose proof (remainder_range i 3 ltac:(lia) ltac:(lia)) as H3.
  pose proof (remainder_range i 8 ltac:(lia) ltac:(lia)) as H8.
  pose proof (remainder_range i 10 ltac:(lia) ltac:(lia)) as H10.
  pose proof (remainder_range i 4 ltac:(lia) ltac:(lia)) as H4.
  cbn in H5, H3, H8, H10, H4.
  split.
  - pose proof (sweep_fraction (mkConfig radius polygonCount 1 1 0 true "" None) i Hi)
      as Hf; cbn [SphericalCustomGeometry.polygonCount] in Hf.
    set (f := IZR i / IZR polygonCount) in *.
    do 3 eexists; exists (radius * (1 + f)).
    split; [ reflexivity | ].
    split; [ reflexivity | ].
    split.
    + replace (radius + IZR i * radius / IZR polygonCount)
        with (radius * (1 + f)) by (unfold f, Rdiv; ring).
      set (r := radius * (1 + f)).
      unfold squaredNorm.
      pose proof (sin2_cos2 (f * PI * 2)) as Ht.
      pose proof (sin2_cos2 (f * PI)) as Hp.
      unfold Rsqr in *.
      set (st := sin (f * PI * 2)) in *; set (ct := cos (f * PI * 2)) in *.
      set (sp := sin (f * PI)) in *; set (cp := cos (f * PI)) in *.
      replace (r * sp * ct * (r * sp * ct) + r * sp * st * (r * sp * st)
               + r * cp * (r * cp))
        with (r * r * (sp * sp * (st * st + ct * ct) + cp * cp)) by ring.
      rewrite Ht, Rmult_1_r, Hp; ring.
    + nra.
  - repeat split; eexists; (split; [ reflexivity | lra ]).
Qed.

(** X20, at an instance: vertex 7 of 100 at radius 100. *)
Lemma legacy_vertex_bounds_witness :
  exists m,
    masses (Legacy.staticVertex 100 100 7 noArrays) = masses noArrays ++ [m] /\
    10 <= m <= 14.
Proof.
  refine (proj1 (proj2 (legacy_vertex_bounds 100 100 7 noArrays _ _))); [ lra | lia ].
Defined.

(** ** The surface as a whole *)

Lemma profile_in_table_range (id : string) (theta phi r : R) :
  In id ids -> 0 <= r -> 0 <= phi <= PI ->
  exists v, profile id theta phi r = Some v /\ 0 <= v <= 1.3 * r.
Proof.
  unfold ids; cbn [In]; intros Hid Hr Hphi.
  pose proof (Cube_range theta phi r Hr).
  pose proof (Cone_range theta phi r Hr Hphi).
  pose proof (Cylinder_range theta phi r Hr Hphi).
  pose proof (Torus_range theta phi r Hr).
  pose proof (Parabola_range theta phi r Hr Hphi).
  destruct Hid as [<- | [<- | [<- | [<- | [<- | [<- | []]]]]]];
    eexists; (split; [ reflexivity | ]).
  - lra.
  - unfold ShapeMorphEngine.Cube, MathJS.max, MathJS.abs in *; lra.
  - unfold ShapeMorphEngine.Cone in *; lra.
  - unfold ShapeMorphEngine.Cylinder in *; lra.
  - unfold ShapeMorphEngine.Torus in *; lra.
  - unfold ShapeMorphEngine.Parabola, MathJS.pow, Rsqr in *.
    replace ((2 * phi / PI - 1) * (2 * phi / PI - 1))
      with ((2 * phi / PI - 1) ^ 2) by ring.
    lra.
Qed.

Lemma Forall_and_cells (P Q : PropertyCell -> Prop)
  (matrix : list (list PropertyCell)) :
  Forall (Forall P) matrix -> Forall (Forall Q) matrix ->
  Forall (Forall (fun cell => P cell /\ Q cell)) matrix.
Proof.
  intros HP HQ; rewrite Forall_forall in *; intros column Hc.
  specialize (HP _ Hc); specialize (HQ _ Hc).
  rewrite Forall_forall in *; intros cell Hin; split; auto.
Qed.

(** X21: the surface stays in a ball.  On an engine of base radius
    [r >= 0] whose shapes are identifiers of the table, whose progress is in
    [0, 1] while an interpolation is in place and whose cells are as
    [generatePropertyCell] makes them from draws in [0, 1), every vertex the
    loop body appends lies less than 1.3 r + 15 away from the origin. *)
Theorem surface_stays_in_ball (g : Geometry) (i : Z) (a a' : Arrays) :
  0 <= radius (config g) ->
  In (currentShape (config g)) ids ->
  (forall s, shapeInterpolation (config g) = Some s ->
             In (from s) ids /\ In (to s) ids /\
             0 <= progress (shapeTransition (scalarField g)) <= 1) ->
  Forall (Forall constantFields) (propertyMatrix g) ->
  Forall (Forall unitDraws) (propertyMatrix g) ->
  (0 <= i < polygonCount (config g))%Z ->
  vertex g i a = Normal a' ->
  exists x y z,
    positions a' = positions a ++ [x; y; z] /\
    squaredNorm x y z
    < (1.3 * radius (config g) + 15) * (1.3 * radius (config g) + 15).
Proof.
  intros Hr Hcur Htr Hconst Hdraws Hi Hv.
  destruct (vertex_cell g _ (Forall_and_cells _ _ _ Hconst Hdraws) i a a' Hv)
    as (cell & v & [Hc Hd] & Hsdf & ->).
  cbn [positions]; do 3 eexists; split; [ reflexivity | ].
  set (theta := theta_of (config g) i) in *.
  set (phi := phi_of (config g) i) in *.
  assert (0 <= phi <= PI) as Hphi.
  { pose proof (sweep_fraction (config g) i Hi) as [H0 H1].
    pose proof PI_RGT_0; unfold phi, phi_of; nra. }
  pose proof (modulation_below_15 theta phi cell (time (scalarField g)) Hc Hd)
    as Hmod.
  assert (-15 < v < 1.3 * radius (config g) + 15) as Hrange.
  { destruct (profile_in_table_range _ theta phi _ Hcur Hr Hphi) as (c & Hpc & Hcr).
    destruct (shapeInterpolation (config g)) as [s | ] eqn:Es.
    - destruct (Htr s eq_refl) as (Hf & Ht & Hp).
      destruct (profile_in_table_range _ theta phi _ Hf Hr Hphi) as (fa & Hpa & Har).
      destruct (profile_in_table_range _ theta phi _ Ht Hr Hphi) as (fb & Hpb & Hbr).
      unfold combinedSDF in Hsdf.
      rewrite (call_profile _ _ _ _ _ Hpc), Es in Hsdf; cbn [bind] in Hsdf.
      rewrite (call_profile _ _ _ _ _ Hpa), (call_profile _ _ _ _ _ Hpb) in Hsdf.
      cbn [bind] in Hsdf; injection Hsdf as <-.
      fold (modulation theta phi cell (time (scalarField g))).
      unfold MathJS.lerp.
      set (p := progress (shapeTransition (scalarField g))) in *.
      assert (0 <= (1 - p) * fa + p * fb <= 1.3 * radius (config g)) by nra.
      lra.
    - unfold combinedSDF in Hsdf.
      rewrite (call_profile _ _ _ _ _ Hpc), Es in Hsdf; cbn [bind] in Hsdf.
      injection Hsdf as <-.
      fold (modulation theta phi cell (time (scalarField g))); lra. }
  unfold squaredNorm.
  pose proof (sin2_cos2 theta) as Ht; pose proof (sin2_cos2 phi) as Hp.
  unfold Rsqr in *.
  set (st := sin theta) in *; set (ct := cos theta) in *.
  set (sp := sin phi) in *; set (cp := cos phi) in *.
  replace (v * sp * ct * (v * sp * ct) + v * sp * st * (v * sp * st)
           + v * cp * (v * cp))
    with (v * v * (sp * sp * (st * st + ct * ct) + cp * cp)) by ring.
  rewrite Ht, Rmult_1_r, Hp, Rmult_1_r.
  nra.
Qed.

(** X21, at an instance: the only vertex of the one-cell Sphere engine. *)
Lemma surface_stays_in_ball_witness :
  exists a',
    vertex (unitEngine "Sphere" None 0) 0 noArrays = Normal a' /\
    exists x y z,
      positions a' = positions noArrays ++ [x; y; z] /\
      squaredNorm x y z < (1.3 * 1 + 15) * (1.3 * 1 + 15).
Proof.
  assert (wellFormed (unitEngine "Sphere" None 0)) as (Hm & Hs & Hw & Hh)
    by (apply unitEngine_wellFormed; eexists; reflexivity).
  destruct (vertex_normal (unitEngine "Sphere" None 0) Hm Hs Hw Hh 0 noArrays)
    as [a' Ha]; [ cbn; lia | ].
  exists a'; split; [ exact Ha | ].
  apply (surface_stays_in_ball (unitEngine "Sphere" None 0) 0 noArrays a').
  - cbn; lra.
  - unfold ids; cbn; tauto.
  - discriminate.
  - constructor; [ | constructor ].
    constructor; [ exact flatCell_constantFields | constructor ].
  - constructor; [ | constructor ].
    constructor; [ exact flatCell_unitDraws | constructor ].
  - cbn; lia.
  - exact Ha.
Defined.

(** ** What construction settles *)

(** X22: whatever its arguments, the constructor leaves an engine whose grid
    width, grid height and morph speed are not 0, whose current shape is not
    the empty string, whose evolution flag is true and which is idle at time
    0 with progress 0: a 0 given for a grid dimension becomes 200, a morph
    speed of 0 becomes 0.5 and an empty shape name becomes "Sphere". *)
Theorem construction_replaces_falsy_options (random : nat -> R) (lg : Logger.t)
  (radius : option R) (polygonCount : option Z) (o : option Options) :
  let w := snd (constructor random lg radius polygonCount o) in
  let c := config (this w) in
  gridWidth c <> 0%Z /\ gridHeight c <> 0%Z /\ morphSpeed c <> 0 /\
  currentShape c <> EmptyString /\ dynamicEvolution c = true /\
  transitionOf w = None /\ timeOf w = 0 /\ progressOf w = 0 /\
  (forall o', o = Some o' ->
     (opt_gridWidth o' = Some 0%Z -> gridWidth c = 200%Z) /\
     (opt_gridHeight o' = Some 0%Z -> gridHeight c = 200%Z) /\
     (opt_morphSpeed o' = Some 0 -> morphSpeed c = 0.5) /\
     (opt_currentShape o' = Some EmptyString -> currentShape c = "Sphere"%string)).
Proof.
  cbn zeta.
  destruct (constructor_state random lg radius polygonCount o) as (Hc & Hf & _);
    cbn zeta in *.
  unfold transitionOf, timeOf, progressOf; rewrite Hc, Hf.
  unfold initialConfig; cbn.
  assert (forall v, orZ v 200 <> 0%Z) as HZ.
  { intros [z | ]; cbn; [ destruct (Z.eqb_spec z 0) | ]; lia. }
  assert (forall v, orR v 0.5 <> 0) as HR.
  { intros [x | ]; cbn; [ destruct (Req_dec_T x 0) | ]; lra. }
  assert (forall v, orString v "Sphere" <> EmptyString) as HS.
  { intros [[ | ch s] | ]; cbn; discriminate. }
  assert (forall v, orBool v true = true) as HB
    by (intros [[ | ] | ]; reflexivity).
  split; [ apply HZ | ].
  split; [ apply HZ | ].
  split; [ apply HR | ].
  split; [ apply HS | ].
  split; [ apply HB | ].
  split; [ reflexivity | ].
  split; [ reflexivity | ].
  split; [ reflexivity | ].
  intros o' ->.
  split; [ intros ->; reflexivity | ].
  split; [ intros ->; reflexivity | ].
  split; [ | intros ->; reflexivity ].
  intros ->; cbn; destruct (Req_dec_T 0 0); [ reflexivity | lra ].
Qed.

(** X22, at an instance: a morph speed of 0 asked for, 0.5 obtained. *)
Lemma construction_replaces_falsy_options_witness :
  morphSpeed
    (config
       (this
          (snd (constructor (fun _ => 0) Logger.loggerInstance None (Some 0%Z)
                  (Some (mkOptions None None (Some 0) None None))))))
  = 0.5.
Proof.
  destruct (construction_replaces_falsy_options (fun _ => 0)
              Logger.loggerInstance None (Some 0%Z)
              (Some (mkOptions None None (Some 0) None None)))
    as (_ & _ & _ & _ & _ & _ & _ & _ & H).
  destruct (H _ eq_refl) as (_ & _ & Hspeed & _).
  exact (Hspeed eq_refl).
Defined.

(** ** Updates that fail *)

(** X23: an update whose regeneration throws is left half-done: the clock
    has moved by deltaTime times the morph speed and the progress of a
    transition in place, of a duration other than 0, has been stepped, while
    the buffer is the one from before the update; the exception reaches the
    caller, so that the "Geometry Updated" entry is not logged. *)
Theorem failed_update_is_not_rolled_back (w : World) (deltaTime : R) (e : exn) :
  dynamicEvolution (config (this w)) = true ->
  (forall i, transitionOf w = Some i -> duration i <> 0) ->
  fst (update w deltaTime) = Throw e ->
  let w' := snd (update w deltaTime) in
  timeOf w' = timeOf w + deltaTime * morphSpeed (config (this w)) /\
  (forall i, transitionOf w = Some i ->
     progressOf w'
     = MathJS.min (progressOf w + deltaTime / duration i) 1) /\
  attributes (this w') = attributes (this w) /\
  logger w'
  = Logger._log (logger (advance w deltaTime)) Logger.error
      "SphericalCustomGeometry Generation Failed".
Proof.
  intros Hon _ Hthrow; cbn zeta.
  destruct (update_enabled w deltaTime Hon) as (_ & Hf & _).
  split; [ | split ].
  - unfold timeOf; rewrite Hf; fold (timeOf (advance w deltaTime)).
    apply advance_time.
  - intros i Hi.
    destruct (update_transitioning w deltaTime i Hon Hi) as (Hp & _); exact Hp.
  - unfold update in *; rewrite Hon in *.
    destruct (sweep (this (advance w deltaTime))
                (vertexIndices (config (this (advance w deltaTime)))) noArrays)
      as [a | e' | m] eqn:E.
    + rewrite (generateScalarFieldGeometry_Normal _ a E) in Hthrow; discriminate.
    + rewrite (generateScalarFieldGeometry_Throw _ e' E); cbn [snd this logger].
      split; [ | reflexivity ].
      unfold advance; destruct (shapeInterpolation _);
        [ destruct (Rge_dec _ _) | ]; reflexivity.
    + unfold generateScalarFieldGeometry in Hthrow; rewrite E in Hthrow;
        discriminate.
Qed.

(** ** A failure an application reaches

    The engine [builtEngine] is built by the constructor, which returns;
    [morphToShape("valueOf", 2)] is accepted on it, and the update that
    follows throws from the first vertex of its regeneration. *)

Lemma builtEngine_state :
  fst (constructor (fun _ => 0) Logger.loggerInstance (Some 1) (Some 1%Z)
         (Some (mkOptions (Some 1%Z) (Some 1%Z) None None None)))
    = Normal tt /\
  config (this builtEngine) = mkConfig 1 1 1 1 0.5 true "Sphere" None /\
  scalarField (this builtEngine) = mkScalarField 0 (mkTransition None None 0) /\
  matrixFits (this builtEngine).
Proof.
  unfold builtEngine.
  destruct (constructor_state (fun _ => 0) Logger.loggerInstance (Some 1)
              (Some 1%Z) (Some (mkOptions (Some 1%Z) (Some 1%Z) None None None)))
    as (Hc & Hf & Hm); cbn zeta in *.
  split.
  { apply constructor_normal; cbn; try lia; eexists; reflexivity. }
  split; [ rewrite Hc; reflexivity | ].
  split; [ exact Hf | ].
  unfold matrixFits; rewrite Hc, Hm.
  apply (initializePropertyMatrix_fits (fun _ => 0)
           (initialConfig 1 1 (mkOptions (Some 1%Z) (Some 1%Z) None None None))).
Qed.

Lemma misledEngine_state :
  dynamicEvolution (config (this misledEngine)) = true /\
  transitionOf misledEngine = Some (mkInterpolation "Sphere" "valueOf" 2) /\
  progressOf misledEngine = 0 /\
  timeOf misledEngine = 0 /\
  morphSpeed (config (this misledEngine)) = 0.5 /\
  attributes (this misledEngine) = attributes (this builtEngine).
Proof.
  destruct builtEngine_state as (_ & Hc & Hf & _).
  unfold misledEngine; rewrite morphToShape_accepted by reflexivity.
  unfold transitionOf, progressOf, timeOf, shapeOf; cbn; rewrite Hc, Hf.
  repeat split; reflexivity.
Qed.

(** The first vertex throws when the current shape cannot be called. *)
Lemma vertex_call_throws (g : Geometry) (e : exn) :
  matrixFits g ->
  (1 <= gridWidth (config g))%Z ->
  (1 <= gridHeight (config g))%Z ->
  (1 <= polygonCount (config g))%Z ->
  (forall theta phi r,
     ShapeMorphEngine.call (ShapeMorphEngine.get (currentShape (config g)))
       theta phi r = Throw e) ->
  vertex g 0 noArrays = Throw e.
Proof.
  intros Hm Hw Hh Hn Hs.
  destruct (matrix_lookup g 0 Hm ltac:(lia) Hw Hh) as (column & cell & Hx & Hy).
  unfold vertex; rewrite Hx, Hy; unfold combinedSDF; rewrite Hs; reflexivity.
Qed.

Lemma misledEngine_advanced (deltaTime : R) :
  vertexIndices (config (this (advance misledEngine deltaTime))) = [] ++ [0%Z] /\
  vertex (this (advance misledEngine deltaTime)) 0 noArrays
    = Throw ShapeMorphEngine.uncallable.
Proof.
  destruct builtEngine_state as (_ & Hc & _ & [Hlen Hcols]).
  pose proof (advance_fixedPart misledEngine deltaTime) as Hfix.
  assert (fixedPart (this misledEngine) = fixedPart (this builtEngine)) as Hfix'
    by (unfold misledEngine, morphToShape; destruct (negb _); reflexivity).
  rewrite Hfix' in Hfix; unfold fixedPart in Hfix; rewrite Hc in Hfix.
  cbn [radius polygonCount gridWidth gridHeight morphSpeed dynamicEvolution]
    in Hfix.
  injection Hfix as _ Hn Hw Hh _ _ Hm _.
  assert (currentShape (config (this (advance misledEngine deltaTime)))
          = "valueOf"%string) as Hshape.
  { destruct misledEngine_state as (_ & Ht & _).
    destruct (advance_transitioning misledEngine deltaTime _ Ht) as (_ & Hs & _).
    unfold shapeOf in Hs; rewrite Hs.
    unfold misledEngine; rewrite morphToShape_accepted by reflexivity.
    reflexivity. }
  split.
  - unfold vertexIndices; rewrite Hn; reflexivity.
  - apply vertex_call_throws; try lia.
    + unfold matrixFits; rewrite Hm, Hw, Hh.
      rewrite Hc in Hlen, Hcols; split; assumption.
    + intros theta phi r; rewrite Hshape; reflexivity.
Qed.

Lemma misledEngine_update_throws (deltaTime : R) :
  fst (update misledEngine deltaTime) = Throw ShapeMorphEngine.uncallable.
Proof.
  destruct misledEngine_state as (Hon & _).
  destruct (misledEngine_advanced deltaTime) as (Hidx & Hv).
  unfold update; rewrite Hon.
  rewrite generateScalarFieldGeometry_Throw with (e := ShapeMorphEngine.uncallable);
    [ reflexivity | ].
  rewrite Hidx; cbn [app sweep]; rewrite Hv; reflexivity.
Qed.

Lemma misledEngine_duration (i : ShapeInterpolation) :
  transitionOf misledEngine = Some i -> duration i <> 0.
Proof.
  destruct misledEngine_state as (_ & Ht & _); rewrite Ht.
  intros [= <-]; cbn; lra.
Qed.

(** C7, at an instance: the constructor returns, the request for "valueOf"
    is accepted, and the update of 1 that follows throws and leaves the
    buffer the construction published. *)
Lemma rebuild_failure_keeps_buffer_witness :
  fst (update misledEngine 1) = Throw ShapeMorphEngine.uncallable /\
  attributes (this (snd (update misledEngine 1)))
    = attributes (this misledEngine).
Proof.
  refine (proj2 (rebuild_failure_keeps_buffer (advance misledEngine 1) [] [] 0
                   noArrays ShapeMorphEngine.uncallable
                   (proj1 (misledEngine_advanced 1)) eq_refl
                   (proj2 (misledEngine_advanced 1)))
            misledEngine 1 (proj1 misledEngine_state) misledEngine_duration
            eq_refl).
Defined.

(** X23, at an instance: the same update, which throws, has moved the clock
    of the engine and stepped its transition. *)
Lemma failed_update_is_not_rolled_back_witness :
  timeOf (snd (update misledEngine 1))
    = timeOf misledEngine + 1 * morphSpeed (config (this misledEngine)) /\
  progressOf (snd (update misledEngine 1))
    = MathJS.min (progressOf misledEngine + 1 / 2) 1.
Proof.
  destruct (failed_update_is_not_rolled_back misledEngine 1
              ShapeMorphEngine.uncallable (proj1 misledEngine_state)
              misledEngine_duration (misledEngine_update_throws 1))
    as (Ht & Hp & _).
  split; [ exact Ht | ].
  exact (Hp (mkInterpolation "Sphere" "valueOf" 2)
           (proj1 (proj2 misledEngine_state))).
Defined.
